(** * Course catalog service ([app.py]): a shallow embedding and its properties

    The Flask application keeps the catalog as one JSON array in
    [course_catalog.json] and serves five routes over it.  The handlers are
    embedded as computations in a small state-and-exception monad over a
    [world] made of the course file, the flashed messages and the log file.

    What is abstracted:
    - a Python [str] is a Rocq [string]; a character stands for a code point
      below 256, and [isspace] is Python's [str.isspace] on that range;
    - the course file holds the value [json.load] would return, a list of
      JSON objects with string values ([gmap string string]); [json.dump]
      followed by [json.load] is taken to be the identity on such values;
    - tracing spans and [time.time()] only feed the tracing backend and the
      [processing_time] log attribute; they are left out, and a log record
      keeps its level and its [event] name;
    - opening, reading and writing the two files is taken to succeed. *)

From stdpp Require Import base option list strings gmap fin_maps.
From Stdlib Require Import Ascii NArith.

Local Open Scope string_scope.
Local Open Scope list_scope.

(** ** Python strings *)

Module PyStr.

(** [str.isspace] on one character (code points below 256): TAB, LF, VT,
    FF, CR, the separators FS, GS, RS, US, SPACE, NEL and NBSP. *)
Definition isspace (ch : ascii) : bool :=
  let n := N_of_ascii ch in
  ((9 <=? n) && (n <=? 13) || (28 <=? n) && (n <=? 32)
   || (n =? 133) || (n =? 160))%N.

(** [s.lstrip()]: drop the leading whitespace. *)
Fixpoint lstrip (s : string) : string :=
  match s with
  | EmptyString => EmptyString
  | String ch rest => if isspace ch then lstrip rest else s
  end.

(** [s.rstrip()]: drop the trailing whitespace. *)
Fixpoint rstrip (s : string) : string :=
  match s with
  | EmptyString => EmptyString
  | String ch rest =>
      match rstrip rest with
      | EmptyString => if isspace ch then EmptyString else String ch EmptyString
      | kept => String ch kept
      end
  end.

(** [s.strip()]. *)
Definition strip (s : string) : string := rstrip (lstrip s).

(** Truth value of a string: only the empty string is false. *)
Definition truthy (s : string) : bool :=
  match s with
  | EmptyString => false
  | String _ _ => true
  end.

(** [sep.join(parts)]. *)
Fixpoint join (sep : string) (parts : list string) : string :=
  match parts with
  | [] => ""
  | [p] => p
  | p :: rest => p +:+ sep +:+ join sep rest
  end.

(** Every character of [s] is whitespace. *)
Fixpoint all_space (s : string) : bool :=
  match s with
  | EmptyString => true
  | String ch rest => isspace ch && all_space rest
  end.

(** First and last character of a string, when it has one. *)
Definition first_char (s : string) : option ascii :=
  match s with
  | EmptyString => None
  | String ch _ => Some ch
  end.

Fixpoint last_char (s : string) : option ascii :=
  match s with
  | EmptyString => None
  | String ch EmptyString => Some ch
  | String _ rest => last_char rest
  end.

(** [s] neither starts nor ends with a whitespace character. *)
Definition stripped (s : string) : bool :=
  match first_char s, last_char s with
  | Some a, Some b => negb (isspace a) && negb (isspace b)
  | _, _ => true
  end.

End PyStr.

(** ** Data model *)

(** A course is the [dict] built in [add_course] and stored as a JSON object. *)
Abbreviation course := (gmap string string).

(** The keys of the dict literal in [add_course], in source order. *)
Definition course_fields : list string :=
  ["code"; "name"; "instructor"; "semester"; "schedule"; "classroom";
   "prerequisites"; "grading"].

(** The list the validation comprehension iterates over. *)
Definition required_fields : list string := ["code"; "name"; "instructor"].

(** Truth value of [next(..., None)]: [None] and the empty dict are false. *)
Definition truthy_course (found : option course) : bool :=
  match found with
  | None => false
  | Some d => negb (bool_decide (d = ∅))
  end.

Inductive log_level := INFO | WARNING.

Record log_record := LogRecord { level : log_level; event : string }.

(** The persistent and per-request state the handlers act on. *)
Record world := World {
  course_file : option (list course); (* [None]: COURSE_FILE does not exist *)
  flashes : list (string * string);   (* (category, message), oldest first *)
  log_output : list log_record        (* logoutput.json, oldest first *)
}.

(** [request.method]; [GET] stands for every method that is not POST. *)
Inductive http_method := GET | POST.

(** [request.method] and [request.form] (the first value of each key). *)
Record Request := mkRequest {
  method : http_method;
  form : gmap string string
}.

Inductive template_context :=
| no_context
| courses_context (courses : list course)
| course_context (c : course).

Inductive response :=
| render_template (template : string) (context : template_context)
| redirect (location : string)
| text_body (body : string).

(** Exceptions the handlers can raise: a missing dict key, and werkzeug's
    error for a missing form key. *)
Inductive exn :=
| KeyError (key : string)
| BadRequestKeyError (key : string).

Inductive outcome (A : Type) :=
| Return (a : A)
| Raise (e : exn).
Arguments Return {A} a.
Arguments Raise {A} e.

(** ** The handler monad: state plus exceptions; effects done before an
    exception stay done. *)

Definition Flask (A : Type) : Type := world → outcome A * world.

Definition ret {A} (a : A) : Flask A := λ w, (Return a, w).

Definition raise {A} (e : exn) : Flask A := λ w, (Raise e, w).

Definition bind {A B} (m : Flask A) (k : A → Flask B) : Flask B :=
  λ w, match m w with
       | (Return a, w') => k a w'
       | (Raise e, w') => (Raise e, w')
       end.

Notation "'let!' x ':=' m 'in' k" := (bind m (λ x, k))
  (at level 10, x name, m at level 100, k at level 200).
Notation "m ';;' k" := (bind m (λ _, k))
  (at level 100, k at level 200, right associativity).

(** [d[key]] *)
Definition getitem (d : gmap string string) (key : string) : Flask string :=
  match d !! key with
  | Some v => ret v
  | None => raise (KeyError key)
  end.

(** [request.form[key]] *)
Definition form_getitem (request : Request) (key : string) : Flask string :=
  match form request !! key with
  | Some v => ret v
  | None => raise (BadRequestKeyError key)
  end.

(** [[x for x in xs if keep(x)]] *)
Fixpoint comprehension {A} (keep : A → Flask bool) (xs : list A) : Flask (list A) :=
  match xs with
  | [] => ret []
  | x :: rest =>
      let! k := keep x in
      let! kept := comprehension keep rest in
      ret (if k then x :: kept else kept)
  end.

(** [next((course for course in courses if course['code'] == code), None)] *)
Fixpoint next_with_code (courses : list course) (code : string)
  : Flask (option course) :=
  match courses with
  | [] => ret None
  | c :: rest =>
      let! k := getitem c "code" in
      if bool_decide (k = code) then ret (Some c) else next_with_code rest code
  end.

(** [flash(message, category)] *)
Definition flash (message category : string) : Flask unit :=
  λ w, (Return (),
        World (course_file w) (flashes w ++ [(category, message)]) (log_output w)).

(** [logger.info] and [logger.warning]: one record appended to the log file. *)
Definition logger_emit (lvl : log_level) (ev : string) : Flask unit :=
  λ w, (Return (),
        World (course_file w) (flashes w) (log_output w ++ [LogRecord lvl ev])).

Definition logger_info := logger_emit INFO.
Definition logger_warning := logger_emit WARNING.

(** [with open(COURSE_FILE, 'w') as file: json.dump(courses, file, indent=4)] *)
Definition dump_courses (courses : list course) : Flask unit :=
  λ w, (Return (), World (Some courses) (flashes w) (log_output w)).

(** [url_for]: the rule registered for each endpoint. *)
Definition url_for (endpoint : string) : string :=
  if bool_decide (endpoint = "index") then "/"
  else if bool_decide (endpoint = "course_catalog") then "/catalog"
  else if bool_decide (endpoint = "add_course") then "/add_course"
  else if bool_decide (endpoint = "manual_trace") then "/manual-trace"
  else "".

(** ** Utility functions *)

Definition load_courses : Flask (list course) :=
  λ w, match course_file w with
       | None => (Return [], w)
       | Some courses => (Return courses, w)
       end.

Definition save_courses (data : course) : Flask unit :=
  let! courses := load_courses in
  dump_courses (courses ++ [data]).

(** ** Routes *)

Definition index : Flask response :=
  logger_info "index-page";;
  ret (render_template "index.html" no_context).

Definition course_catalog : Flask response :=
  let! courses := load_courses in
  logger_info "catalog-page";;
  ret (render_template "course_catalog.html" (courses_context courses)).

Definition add_course (request : Request) : Flask response :=
  match method request with
  | POST =>
      let! code := form_getitem request "code" in
      let! name := form_getitem request "name" in
      let! instructor := form_getitem request "instructor" in
      let! semester := form_getitem request "semester" in
      let! schedule := form_getitem request "schedule" in
      let! classroom := form_getitem request "classroom" in
      let! prerequisites := form_getitem request "prerequisites" in
      let! grading := form_getitem request "grading" in
      let course : gmap string string :=
        list_to_map
          [("code", PyStr.strip code);
           ("name", PyStr.strip name);
           ("instructor", PyStr.strip instructor);
           ("semester", PyStr.strip semester);
           ("schedule", PyStr.strip schedule);
           ("classroom", PyStr.strip classroom);
           ("prerequisites", PyStr.strip prerequisites);
           ("grading", PyStr.strip grading)] in
      let! missing_fields :=
        comprehension
          (λ field, let! v := getitem course field in ret (negb (PyStr.truthy v)))
          required_fields in
      match missing_fields with
      | _ :: _ =>
          logger_warning "add-course-error";;
          flash ("The following required fields are missing: "
                 +:+ PyStr.join ", " missing_fields) "error";;
          ret (render_template "add_course.html" no_context)
      | [] =>
          save_courses course;;
          logger_info "course-added";;
          ret (redirect (url_for "course_catalog"))
      end
  | GET =>
      logger_info "add-course-page";;
      ret (render_template "add_course.html" no_context)
  end.

(** The [if not course:] branch of [course_details]. *)
Definition course_not_found (code : string) : Flask response :=
  flash ("No course found with code '" +:+ code +:+ "'.") "error";;
  logger_warning "course-not-found";;
  ret (redirect (url_for "course_catalog")).

(** [if not course:] is taken when [next] gave [None] or an empty dict;
    otherwise the found dict is handed to the template. *)
Definition course_details (code : string) : Flask response :=
  let! courses := load_courses in
  let! found := next_with_code courses code in
  match found with
  | Some c =>
      if truthy_course found then
        logger_info "course-details-viewed";;
        ret (render_template "course_details.html" (course_context c))
      else course_not_found code
  | None => course_not_found code
  end.

(** [course['code'] != code], the condition of the comprehension in
    [delete_course]. *)
Definition keeps (code : string) (c : course) : Flask bool :=
  let! k := getitem c "code" in ret (negb (bool_decide (k = code))).

Definition delete_course (code : string) : Flask response :=
  let! courses := load_courses in
  let! course_to_delete := next_with_code courses code in
  (if truthy_course course_to_delete then
     let! courses := comprehension (keeps code) courses in
     dump_courses courses;;
     logger_info "course-deleted";;
     flash ("Course with code " +:+ code +:+ " has been deleted successfully.")
           "success"
   else
     flash ("No course found with code '" +:+ code +:+ "'.") "error");;
  logger_info "course-deleted";;
  ret (redirect (url_for "course_catalog")).

Definition manual_trace : Flask response :=
  logger_info "manual-trace";;
  ret (text_body "Manual trace finished").

(** The catalog a request sees: what [load_courses] returns in that world. *)
Definition catalog (w : world) : list course :=
  match course_file w with
  | None => []
  | Some courses => courses
  end.

(** ** Vocabulary of the properties *)

(** The entry carries a ['code'] key, as every Course record does. *)
Definition has_code (c : course) : Prop := is_Some (c !! "code").

(** The entry has a code, and it is not [code]. *)
Definition code_differs (code : string) (c : course) : Prop :=
  ∃ k, c !! "code" = Some k ∧ k ≠ code.

(** [code] occurs in the catalog: some entry has it as its code. *)
Definition occurs (code : string) (courses : list course) : Prop :=
  ∃ c, c ∈ courses ∧ c !! "code" = Some code.

(** Number of entries with code [code]. *)
Definition count_code (code : string) (courses : list course) : nat :=
  length (filter (λ c : course, c !! "code" = Some code) courses).

(** The entries whose code is not [code], in catalog order. *)
Definition without_code (code : string) (courses : list course) : list course :=
  filter (λ c : course, c !! "code" ≠ Some code) courses.

(** The world after [flash] and after a log record. *)
Definition flashed (category message : string) (w : world) : world :=
  World (course_file w) (flashes w ++ [(category, message)]) (log_output w).

Definition logged (lvl : log_level) (ev : string) (w : world) : world :=
  World (course_file w) (flashes w) (log_output w ++ [LogRecord lvl ev]).

Definition not_found_message (code : string) : string :=
  "No course found with code '" +:+ code +:+ "'.".

Definition deleted_message (code : string) : string :=
  "Course with code " +:+ code +:+ " has been deleted successfully.".

(** The form carries every key the handler reads. *)
Definition complete_form (f : gmap string string) : Prop :=
  ∀ k, k ∈ course_fields → is_Some (f !! k).

(** The submitted value of a field, stripped. *)
Definition stripped_field (f : gmap string string) (k : string) : string :=
  PyStr.strip (default "" (f !! k)).

(** The dict literal of [add_course] for a complete form. *)
Definition course_of_form (f : gmap string string) : course :=
  list_to_map ((λ k, (k, stripped_field f k)) <$> course_fields).

(** The required fields that are empty once stripped, in validation order. *)
Definition missing_of (f : gmap string string) : list string :=
  filter (λ k, stripped_field f k = "") required_fields.

Definition missing_message (missing : list string) : string :=
  "The following required fields are missing: " +:+ PyStr.join ", " missing.

(** Two worlds that [load_courses] cannot tell apart. *)
Definition same_view (w1 w2 : world) : Prop :=
  catalog w1 = catalog w2
  ∧ flashes w1 = flashes w2
  ∧ log_output w1 = log_output w2.

(** Same outcome, and final worlds with the same view. *)
Definition same_result {A} (r1 r2 : outcome A * world) : Prop :=
  r1.1 = r2.1 ∧ same_view r1.2 r2.2.

(** A computation that gives the same outcome in worlds with the same view,
    and leaves them with the same view. *)
Definition respects_view {A} (m : Flask A) : Prop :=
  ∀ w1 w2, same_view w1 w2 →
    (m w1).1 = (m w2).1 ∧ same_view (m w1).2 (m w2).2.

(** A Course record: a dict with exactly the eight keys. *)
Definition is_course (c : course) : Prop :=
  dom c = (list_to_set course_fields : gset string).

(** The first entry whose code is [code], in list order. *)
Fixpoint first_with_code (code : string) (courses : list course)
  : option course :=
  match courses with
  | [] => None
  | c :: rest =>
      if bool_decide (c !! "code" = Some code) then Some c
      else first_with_code code rest
  end.

(** Some entry of the list has no ['code'] key. *)
Definition lacks_code (courses : list course) : Prop :=
  Exists (λ c : course, c !! "code" = None) courses.

(** The course file is the same in both worlds. *)
Definition same_file (w w' : world) : Prop := course_file w' = course_file w.

(** [w'] has the flashes and the log records of [w], in order, and possibly
    more after them. *)
Definition extends (w w' : world) : Prop :=
  flashes w `prefix_of` flashes w' ∧ log_output w `prefix_of` log_output w'.

(** The computation relates each world to the world it leaves, whether it
    returns or raises. *)
Definition preserves (R : world → world → Prop) {A} (m : Flask A) : Prop :=
  ∀ w, R w (m w).2.

(** The form carries the eight fields and its required fields are not
    empty once stripped: the forms [add_course] accepts. *)
Definition valid_form (f : gmap string string) : Prop :=
  complete_form f ∧ ∀ k, k ∈ required_fields → stripped_field f k ≠ "".

(** A stored JSON object without a ['code'] key. *)
Definition no_code_entry : course :=
  list_to_map [("name", "Untitled"); ("instructor", "Nobody")].

(** ** Sample data *)

Definition sample_course (code name instructor : string) : course :=
  list_to_map
    [("code", code); ("name", name); ("instructor", instructor);
     ("semester", "Fall"); ("schedule", "Mon 10:00"); ("classroom", "A1");
     ("prerequisites", ""); ("grading", "exam")].

Definition sample_form (code name instructor : string) : gmap string string :=
  list_to_map
    [("code", code); ("name", name); ("instructor", instructor);
     ("semester", " Fall "); ("schedule", "Mon 10:00"); ("classroom", "A1 ");
     ("prerequisites", ""); ("grading", "exam")].

(** Three entries, the last two with the same code CS101. *)
Definition sample_catalog : list course :=
  [sample_course "CS102" "Logic" "Iyer";
   sample_course "CS101" "Programming" "Rao";
   sample_course "CS101" "Programming II" "Das"].

Definition sample_world : world := World (Some sample_catalog) [] [].

(** ** Facts about [strip] *)

Module PyStrFacts.
Import PyStr.

Lemma append_nil (b : string) : "" +:+ b = b.
Proof. reflexivity. Qed.

Lemma append_cons ch (a b : string) : String ch a +:+ b = String ch (a +:+ b).
Proof. reflexivity. Qed.

Lemma lstrip_split s :
  ∃ l, s = l +:+ lstrip s ∧ all_space l = true.
Proof.
  induction s as [|ch rest [l [E Hl]]]; simpl.
  - by exists "".
  - destruct (isspace ch) eqn:Hch.
    + exists (String ch l). rewrite append_cons, <- E. simpl.
      by rewrite Hch, Hl.
    + by exists "".
Qed.

Lemma rstrip_split s :
  ∃ r, s = rstrip s +:+ r ∧ all_space r = true.
Proof.
  induction s as [|ch rest [r [E Hr]]]; simpl.
  - by exists "".
  - destruct (rstrip rest) as [|k kept] eqn:Hk.
    + rewrite append_nil in E. subst r. destruct (isspace ch) eqn:Hch.
      * exists (String ch rest). simpl. by rewrite Hch, Hr.
      * exists rest. by rewrite append_cons, append_nil.
    + exists r. split; [|done]. by rewrite append_cons, <- E.
Qed.

Lemma lstrip_first s :
  match first_char (lstrip s) with
  | Some ch => isspace ch = false
  | None => True
  end.
Proof.
  induction s as [|ch rest IH]; simpl; [done|].
  destruct (isspace ch) eqn:Hch; [exact IH | by simpl].
Qed.

Lemma rstrip_first s :
  first_char s = None ∨
  (∃ ch, first_char s = Some ch ∧ isspace ch = false) →
  first_char (rstrip s) = None ∨
  (∃ ch, first_char (rstrip s) = Some ch ∧ isspace ch = false).
Proof.
  destruct s as [|ch rest]; simpl; [by left|].
  intros [?|[c [[= <-] Hc]]]; [done|].
  right. exists ch. destruct (rstrip rest); by rewrite ?Hc.
Qed.

Lemma rstrip_last s :
  match last_char (rstrip s) with
  | Some ch => isspace ch = false
  | None => True
  end.
Proof.
  induction s as [|ch rest IH]; simpl; [done|].
  destruct (rstrip rest) as [|k kept] eqn:Hk.
  - destruct (isspace ch) eqn:Hch; simpl; done.
  - exact IH.
Qed.

Lemma strip_stripped s : stripped (strip s) = true.
Proof.
  unfold stripped, strip.
  pose proof (rstrip_last (lstrip s)) as Hl.
  pose proof (lstrip_first s) as Hf.
  destruct (rstrip_first (lstrip s)) as [E|[ch [E Hch]]].
  - destruct (first_char (lstrip s)); eauto.
  - by rewrite E.
  - rewrite E. destruct (last_char (rstrip (lstrip s))); [|done].
    by rewrite Hch, Hl.
Qed.

(** [strip] removes a whitespace prefix and a whitespace suffix, and what is
    left neither starts nor ends with whitespace. *)
Lemma strip_spec s :
  ∃ l r, s = l +:+ strip s +:+ r
         ∧ all_space l = true ∧ all_space r = true
         ∧ stripped (strip s) = true.
Proof.
  destruct (lstrip_split s) as [l [El Hl]].
  destruct (rstrip_split (lstrip s)) as [r [Er Hr]].
  exists l, r. repeat split; auto using strip_stripped.
  unfold strip. by rewrite <- Er.
Qed.

End PyStrFacts.

(** ** The two scans of the course list *)

Section Scans.
Variable code : string.

Lemma getitem_code (c : course) k w :
  c !! "code" = Some k → getitem c "code" w = (Return k, w).
Proof. intros E. unfold getitem. by rewrite E. Qed.

Lemma next_with_code_none courses w :
  Forall (code_differs code) courses →
  next_with_code courses code w = (Return None, w).
Proof.
  induction 1 as [|c rest [k [E Hne]] _ IH]; [done|].
  simpl. unfold bind. rewrite (getitem_code c k w E).
  by rewrite bool_decide_eq_false_2.
Qed.

Lemma next_with_code_first pre c post w :
  Forall (code_differs code) pre →
  c !! "code" = Some code →
  next_with_code (pre ++ c :: post) code w = (Return (Some c), w).
Proof.
  intros Hpre Hc. induction Hpre as [|d rest [k [E Hne]] _ IH]; simpl.
  - unfold bind. rewrite (getitem_code c code w Hc).
    by rewrite bool_decide_eq_true_2.
  - unfold bind. rewrite (getitem_code d k w E).
    by rewrite bool_decide_eq_false_2.
Qed.

Lemma comprehension_keeps courses w :
  Forall has_code courses →
  comprehension (keeps code) courses w
= (Return (without_code code courses), w).
Proof.
  induction 1 as [|c rest [k E] _ IH]; [done|].
  simpl. unfold bind at 1, keeps at 1, bind at 1.
  rewrite (getitem_code c k w E). unfold ret at 1.
  unfold bind. rewrite IH. unfold ret, without_code.
  rewrite filter_cons. destruct (decide (k = code)) as [->|Hne].
  - rewrite bool_decide_eq_true_2 by done. simpl.
    by rewrite decide_False by (rewrite E; naive_solver).
  - rewrite bool_decide_eq_false_2 by done. simpl.
    by rewrite decide_True by (rewrite E; naive_solver).
Qed.

(** An occurring code has a first occurrence. *)
Lemma occurs_first courses :
  Forall has_code courses → occurs code courses →
  ∃ pre c post, courses = pre ++ c :: post
                ∧ Forall (code_differs code) pre ∧ c !! "code" = Some code.
Proof.
  induction 1 as [|d rest [k E] Hrest IH]; intros [c [Hin Hc]].
  - by apply elem_of_nil in Hin.
  - destruct (decide (k = code)) as [->|Hne].
    + exists [], d, rest. by repeat split.
    + apply elem_of_cons in Hin as [->|Hin]; [congruence|].
      destruct IH as (pre & c' & post & -> & Hpre & Hc'); [by exists c|].
      exists (d :: pre), c', post. repeat split; [|done].
      constructor; [by exists k | done].
Qed.

Lemma code_differs_has_code courses :
  Forall (code_differs code) courses → Forall has_code courses.
Proof.
  intros H. eapply Forall_impl; [exact H|].
  intros c [k [E _]]. by exists k.
Qed.

Lemma without_code_differs courses :
  Forall (code_differs code) courses → without_code code courses = courses.
Proof.
  induction 1 as [|c rest [k [E Hne]] _ IH]; [done|].
  unfold without_code in *. rewrite filter_cons, IH.
  by rewrite decide_True by (rewrite E; naive_solver).
Qed.

Lemma count_without courses :
  length (without_code code courses) + count_code code courses
  = length courses.
Proof.
  unfold without_code, count_code.
  induction courses as [|c rest IH]; [done|].
  rewrite !filter_cons.
  destruct (decide (c !! "code" = Some code)) as [E|E].
  - rewrite decide_False by naive_solver. simpl. lia.
  - rewrite decide_True by done. simpl. lia.
Qed.

Lemma count_code_occurs courses :
  occurs code courses → (1 ≤ count_code code courses)%nat.
Proof.
  intros [c [Hin Hc]]. unfold count_code.
  assert (c ∈ filter (λ c : course, c !! "code" = Some code) courses) as Hf
    by (by apply list_elem_of_filter).
  destruct (filter _ courses); [by apply elem_of_nil in Hf | simpl; lia].
Qed.

End Scans.

(** A found course is a non-empty dict, hence true. *)
Lemma truthy_course_code (c : course) code :
  c !! "code" = Some code → truthy_course (Some c) = true.
Proof.
  intros E. simpl. rewrite bool_decide_eq_false_2; [done|].
  intros ->. by rewrite lookup_empty in E.
Qed.

(** ** Running the monad *)

Lemma bind_return {A B} (m : Flask A) (k : A → Flask B) w a w' :
  m w = (Return a, w') → bind m k w = k a w'.
Proof. intros E. unfold bind. by rewrite E. Qed.

Lemma bind_raise {A B} (m : Flask A) (k : A → Flask B) w e w' :
  m w = (Raise e, w') → bind m k w = (Raise e, w').
Proof. intros E. unfold bind. by rewrite E. Qed.

Lemma load_courses_catalog w : load_courses w = (Return (catalog w), w).
Proof. unfold load_courses, catalog. by destruct (course_file w). Qed.

Lemma flash_flashed message category w :
  flash message category w = (Return (), flashed category message w).
Proof. reflexivity. Qed.

Lemma logger_info_logged ev w : logger_info ev w = (Return (), logged INFO ev w).
Proof. reflexivity. Qed.

Lemma logger_warning_logged ev w :
  logger_warning ev w = (Return (), logged WARNING ev w).
Proof. reflexivity. Qed.

(** Run the leading computation of a [bind] with the given equation. *)
Ltac run_with lem := erewrite bind_return by (apply lem; eauto).
Ltac run_effects :=
  repeat first
    [ run_with flash_flashed
    | run_with logger_info_logged
    | run_with logger_warning_logged ].

(** ** Characterisation of the handlers on catalogs of courses *)

Lemma save_courses_run data w :
  save_courses data w
  = (Return (), World (Some (catalog w ++ [data])) (flashes w) (log_output w)).
Proof. unfold save_courses. by run_with load_courses_catalog. Qed.

Lemma course_not_found_run code w :
  course_not_found code w
  = (Return (redirect "/catalog"),
     logged WARNING "course-not-found"
       (flashed "error" (not_found_message code) w)).
Proof. unfold course_not_found. by run_effects. Qed.

Lemma course_details_absent code w :
  Forall (code_differs code) (catalog w) →
  course_details code w
  = (Return (redirect "/catalog"),
     logged WARNING "course-not-found"
       (flashed "error" (not_found_message code) w)).
Proof.
  intros H. unfold course_details.
  run_with load_courses_catalog.
  run_with next_with_code_none.
  apply course_not_found_run.
Qed.

Lemma course_details_first code w pre c post :
  catalog w = pre ++ c :: post →
  Forall (code_differs code) pre →
  c !! "code" = Some code →
  course_details code w
  = (Return (render_template "course_details.html" (course_context c)),
     logged INFO "course-details-viewed" w).
Proof.
  intros E Hpre Hc. unfold course_details.
  run_with load_courses_catalog. rewrite E.
  run_with next_with_code_first.
  rewrite (truthy_course_code c code Hc). by run_effects.
Qed.

Lemma delete_course_absent code w :
  Forall (code_differs code) (catalog w) →
  delete_course code w
  = (Return (redirect "/catalog"),
     logged INFO "course-deleted"
       (flashed "error" (not_found_message code) w)).
Proof.
  intros H. unfold delete_course.
  run_with load_courses_catalog.
  run_with next_with_code_none.
  simpl truthy_course. cbv iota. by run_effects.
Qed.

Lemma delete_course_present code w :
  Forall has_code (catalog w) →
  occurs code (catalog w) →
  delete_course code w
  = (Return (redirect "/catalog"),
     logged INFO "course-deleted"
       (flashed "success" (deleted_message code)
          (logged INFO "course-deleted"
             (World (Some (without_code code (catalog w)))
                    (flashes w) (log_output w))))).
Proof.
  intros Hwf Hocc.
  destruct (occurs_first code _ Hwf Hocc) as (pre & c & post & E & Hpre & Hc).
  unfold delete_course.
  run_with load_courses_catalog.
  erewrite bind_return
    by (rewrite E; apply next_with_code_first; eauto).
  rewrite (truthy_course_code c code Hc).
  erewrite (bind_return (bind (comprehension _ _) _)).
  2: { erewrite bind_return by (apply (comprehension_keeps code); eauto).
       unfold dump_courses. run_effects. reflexivity. }
  by run_effects.
Qed.

(** ** [add_course] on a POST request *)

Lemma form_getitem_present m f k v w :
  f !! k = Some v → form_getitem (mkRequest m f) k w = (Return v, w).
Proof. intros E. unfold form_getitem. simpl. by rewrite E. Qed.

Lemma form_getitem_absent m f k w :
  f !! k = None →
  form_getitem (mkRequest m f) k w = (Raise (BadRequestKeyError k), w).
Proof. intros E. unfold form_getitem. simpl. by rewrite E. Qed.

Ltac in_fields :=
  unfold course_fields;
  repeat first [ apply list_elem_of_here | apply list_elem_of_further ].

Lemma add_course_post f w :
  complete_form f →
  add_course (mkRequest POST f) w
  = match missing_of f with
    | [] =>
        (Return (redirect "/catalog"),
         logged INFO "course-added"
           (World (Some (catalog w ++ [course_of_form f]))
                  (flashes w) (log_output w)))
    | missing =>
        (Return (render_template "add_course.html" no_context),
         flashed "error" (missing_message missing)
           (logged WARNING "add-course-error" w))
    end.
Proof.
  intros Hf.
  assert (∀ k, k ∈ course_fields → ∃ v, f !! k = Some v) as Hget
    by (intros k Hk; destruct (Hf k Hk) as [v E]; by exists v).
  destruct (Hget "code") as [code Ecode]; [in_fields|].
  destruct (Hget "name") as [name Ename]; [in_fields|].
  destruct (Hget "instructor") as [instructor Einstructor]; [in_fields|].
  destruct (Hget "semester") as [semester Esemester]; [in_fields|].
  destruct (Hget "schedule") as [schedule Eschedule]; [in_fields|].
  destruct (Hget "classroom") as [classroom Eclassroom]; [in_fields|].
  destruct (Hget "prerequisites") as [prerequisites Eprerequisites]; [in_fields|].
  destruct (Hget "grading") as [grading Egrading]; [in_fields|].
  unfold add_course. cbn [method].
  do 8 run_with form_getitem_present.
  unfold missing_of, course_of_form, stripped_field, required_fields,
    course_fields.
  simpl fmap. rewrite !filter_cons, filter_nil.
  rewrite Ecode, Ename, Einstructor, Esemester, Eschedule, Eclassroom,
    Eprerequisites, Egrading.
  simpl default.
  set (c := list_to_map _).
  assert (c !! "code" = Some (PyStr.strip code)) as Lcode by reflexivity.
  assert (c !! "name" = Some (PyStr.strip name)) as Lname by reflexivity.
  assert (c !! "instructor" = Some (PyStr.strip instructor)) as Linstructor
    by reflexivity.
  erewrite bind_return.
  2: { simpl comprehension. unfold bind, getitem.
       rewrite Lcode, Lname, Linstructor. reflexivity. }
  clearbody c.
  destruct (PyStr.strip code), (PyStr.strip name), (PyStr.strip instructor);
    simpl;
    repeat (rewrite decide_True by done);
    repeat (rewrite decide_False by done);
    first [ run_with save_courses_run | idtac ]; by run_effects.
Qed.

Lemma course_of_form_lookup f k :
  k ∈ course_fields → course_of_form f !! k = Some (stripped_field f k).
Proof.
  intros Hk. unfold course_fields in Hk.
  repeat (apply elem_of_cons in Hk as [->|Hk]; [reflexivity|]).
  by apply elem_of_nil in Hk.
Qed.

Ltac absent_here E :=
  right;
  match type of E with _ !! ?k = None => exists k end;
  split; [in_fields|]; split; [exact E|];
  intros w; unfold add_course; cbn [method];
  repeat run_with form_getitem_present;
  by apply bind_raise, form_getitem_absent.

(** A POST whose form lacks a key is aborted at the first such key, before
    any effect. *)
Lemma add_course_post_cases f :
  complete_form f ∨
  ∃ k, k ∈ course_fields ∧ f !! k = None ∧
       ∀ w, add_course (mkRequest POST f) w = (Raise (BadRequestKeyError k), w).
Proof.
  destruct (f !! "code") eqn:E1; [|absent_here E1].
  destruct (f !! "name") eqn:E2; [|absent_here E2].
  destruct (f !! "instructor") eqn:E3; [|absent_here E3].
  destruct (f !! "semester") eqn:E4; [|absent_here E4].
  destruct (f !! "schedule") eqn:E5; [|absent_here E5].
  destruct (f !! "classroom") eqn:E6; [|absent_here E6].
  destruct (f !! "prerequisites") eqn:E7; [|absent_here E7].
  destruct (f !! "grading") eqn:E8; [|absent_here E8].
  left. intros k Hk. unfold course_fields in Hk.
  repeat (apply elem_of_cons in Hk as [->|Hk]; [by eexists|]).
  by apply elem_of_nil in Hk.
Qed.

(** In a catalog of courses a code either occurs or differs from every
    entry's code. *)
Lemma occurs_or_differs code courses :
  Forall has_code courses →
  occurs code courses ∨ Forall (code_differs code) courses.
Proof.
  induction 1 as [|c rest [k E] _ [[d [Hin Hd]]|IH]].
  - right. constructor.
  - left. exists d. split; [by apply list_elem_of_further | done].
  - destruct (decide (k = code)) as [->|Hne].
    + left. exists c. split; [apply list_elem_of_here | done].
    + right. constructor; [by exists k | done].
Qed.

(** ** Handlers see the course file only through [load_courses] *)

Section RespectsView.

Lemma respects_ret {A} (a : A) : respects_view (ret a).
Proof. by intros w1 w2 H. Qed.

Lemma respects_raise {A} e : respects_view (@raise A e).
Proof. by intros w1 w2 H. Qed.

Lemma respects_bind {A B} (m : Flask A) (k : A → Flask B) :
  respects_view m → (∀ a, respects_view (k a)) → respects_view (bind m k).
Proof.
  intros Hm Hk w1 w2 H. destruct (Hm w1 w2 H) as [Ho Hw]. unfold bind.
  destruct (m w1) as [[a1|e1] w1'], (m w2) as [[a2|e2] w2'];
    simpl in *; try discriminate.
  - simplify_eq. by apply Hk.
  - simplify_eq. by split.
Qed.

Lemma respects_getitem d key : respects_view (getitem d key).
Proof.
  unfold getitem.
  destruct (d !! key); [apply respects_ret | apply respects_raise].
Qed.

Lemma respects_form_getitem request key :
  respects_view (form_getitem request key).
Proof.
  unfold form_getitem.
  destruct (form request !! key); [apply respects_ret | apply respects_raise].
Qed.

Lemma respects_load_courses : respects_view load_courses.
Proof.
  intros w1 w2 H. rewrite !load_courses_catalog. simpl.
  split; [|exact H]. destruct H as [Hc _]. by rewrite Hc.
Qed.

Lemma respects_dump_courses courses : respects_view (dump_courses courses).
Proof. intros w1 w2 (_ & ? & ?). by repeat split. Qed.

Lemma respects_flash message category : respects_view (flash message category).
Proof.
  intros w1 w2 (Hc & Hf & Hl). repeat split; simpl; [done| |done].
  by rewrite Hf.
Qed.

Lemma respects_logger_emit lvl ev : respects_view (logger_emit lvl ev).
Proof.
  intros w1 w2 (Hc & Hf & Hl). repeat split; simpl; [done|done|].
  by rewrite Hl.
Qed.

Lemma respects_comprehension {A} (keep : A → Flask bool) xs :
  (∀ x, respects_view (keep x)) → respects_view (comprehension keep xs).
Proof.
  intros Hk. induction xs as [|x rest IH]; simpl.
  - apply respects_ret.
  - apply respects_bind; [apply Hk|]. intros k.
    apply respects_bind; [apply IH|]. intros kept. apply respects_ret.
Qed.

Lemma respects_next_with_code courses code :
  respects_view (next_with_code courses code).
Proof.
  induction courses as [|c rest IH]; simpl.
  - apply respects_ret.
  - apply respects_bind; [apply respects_getitem|]. intros k.
    destruct (bool_decide (k = code)); [apply respects_ret | apply IH].
Qed.

Ltac respects :=
  repeat first
    [ apply respects_ret
    | apply respects_raise
    | apply respects_load_courses
    | apply respects_dump_courses
    | apply respects_flash
    | apply respects_logger_emit
    | apply respects_getitem
    | apply respects_form_getitem
    | apply respects_next_with_code
    | apply respects_comprehension; intros ?
    | apply respects_bind; [|intros ?]
    | match goal with |- respects_view (match ?x with _ => _ end) =>
        destruct x end
    | match goal with |- respects_view (if ?x then _ else _) =>
        destruct x end ].

Lemma respects_save_courses data : respects_view (save_courses data).
Proof. unfold save_courses. respects. Qed.

Lemma respects_index : respects_view index.
Proof. unfold index, logger_info. respects. Qed.

Lemma respects_course_catalog : respects_view course_catalog.
Proof. unfold course_catalog, logger_info. respects. Qed.

Lemma respects_add_course request : respects_view (add_course request).
Proof.
  unfold add_course, logger_info, logger_warning.
  destruct (method request); respects; apply respects_save_courses.
Qed.

Lemma respects_course_details code : respects_view (course_details code).
Proof.
  unfold course_details, course_not_found, logger_info, logger_warning.
  respects.
Qed.

Lemma respects_delete_course code : respects_view (delete_course code).
Proof. unfold delete_course, logger_info. respects. Qed.

End RespectsView.

(** ** Facts about the sample data *)

Lemma sample_catalog_has_code : Forall has_code sample_catalog.
Proof. repeat constructor; by eexists. Qed.

Lemma sample_catalog_differs code :
  code ≠ "CS101" → code ≠ "CS102" →
  Forall (code_differs code) sample_catalog.
Proof. intros H1 H2. repeat constructor; eexists; (split; [reflexivity|done]). Qed.

Lemma sample_form_complete code name instructor :
  complete_form (sample_form code name instructor).
Proof.
  intros k Hk. unfold course_fields in Hk.
  repeat (apply elem_of_cons in Hk as [->|Hk]; [by eexists|]).
  by apply elem_of_nil in Hk.
Qed.

(** * The claims *)

(** C1 (as amended): for every catalog of courses and every code that occurs
    in it, [delete_course] removes every entry with that code.  The length
    drops by the number of matching entries, which is at least one, and it
    drops by exactly one when the code occurs exactly once. *)
Theorem delete_course_removes_every_match w code :
  Forall has_code (catalog w) →
  occurs code (catalog w) →
  catalog (delete_course code w).2 = without_code code (catalog w)
  ∧ length (catalog (delete_course code w).2) + count_code code (catalog w)
    = length (catalog w)
  ∧ (1 ≤ count_code code (catalog w))%nat
  ∧ (count_code code (catalog w) = 1%nat →
     length (catalog (delete_course code w).2) = (length (catalog w) - 1)%nat).
Proof.
  intros Hwf Hocc.
  assert (catalog (delete_course code w).2 = without_code code (catalog w))
    as -> by (by rewrite (delete_course_present code w Hwf Hocc)).
  pose proof (count_without code (catalog w)) as Hsum.
  pose proof (count_code_occurs code (catalog w) Hocc) as Hone.
  repeat split; [done|done|]. intros E. lia.
Qed.

Lemma delete_course_removes_every_match_witness :
  Forall has_code (catalog sample_world)
  ∧ occurs "CS102" (catalog sample_world)
  ∧ length (catalog (delete_course "CS102" sample_world).2)
    = (length (catalog sample_world) - 1)%nat.
Proof.
  assert (occurs "CS102" (catalog sample_world)) as Hocc.
  { exists (sample_course "CS102" "Logic" "Iyer").
    split; [apply list_elem_of_here | reflexivity]. }
  split; [apply sample_catalog_has_code|]. split; [exact Hocc|].
  apply (delete_course_removes_every_match sample_world "CS102");
    [apply sample_catalog_has_code | exact Hocc | reflexivity].
Defined.

(** C1 as stated fails: CS101 occurs in the sample catalog, and deleting it
    takes two of the three entries away. *)
Lemma delete_course_duplicates_counterexample :
  Forall has_code (catalog sample_world)
  ∧ occurs "CS101" (catalog sample_world)
  ∧ catalog (delete_course "CS101" sample_world).2
    = [sample_course "CS102" "Logic" "Iyer"]
  ∧ length (catalog (delete_course "CS101" sample_world).2)
    ≠ (length (catalog sample_world) - 1)%nat.
Proof.
  split; [apply sample_catalog_has_code|]. split.
  { exists (sample_course "CS101" "Programming" "Rao").
    split; [apply list_elem_of_further, list_elem_of_here | reflexivity]. }
  split; [by vm_compute|]. vm_compute. lia.
Qed.

(** C2: [save_courses] returns normally and leaves a catalog exactly one
    entry longer, whatever the catalog and the record. *)
Theorem save_courses_grows_by_one w (data : course) :
  (save_courses data w).1 = Return ()
  ∧ length (catalog (save_courses data w).2) = S (length (catalog w)).
Proof.
  rewrite save_courses_run. split; [done|].
  change (length (catalog w ++ [data]) = S (length (catalog w))).
  rewrite length_app. simpl. lia.
Qed.

(** C3: when the code differs from the code of every catalog entry,
    [course_details] flashes the error message and redirects to the catalog
    page; it renders no template. *)
Theorem course_details_unknown_code_redirects w code :
  Forall (code_differs code) (catalog w) →
  (course_details code w).1 = Return (redirect (url_for "course_catalog"))
  ∧ flashes (course_details code w).2
    = flashes w ++ [("error", not_found_message code)]
  ∧ (∀ template context,
       (course_details code w).1 ≠ Return (render_template template context)).
Proof.
  intros H. rewrite (course_details_absent code w H). simpl.
  repeat split; done.
Qed.

Lemma course_details_unknown_code_redirects_witness :
  Forall (code_differs "CS999") (catalog sample_world)
  ∧ (course_details "CS999" sample_world).1 = Return (redirect "/catalog")
  ∧ flashes (course_details "CS999" sample_world).2
    = [("error", "No course found with code 'CS999'.")].
Proof.
  assert (Forall (code_differs "CS999") (catalog sample_world)) as H
    by (by apply sample_catalog_differs).
  split; [exact H|].
  destruct (course_details_unknown_code_redirects sample_world "CS999" H)
    as (Hr & Hf & _).
  split; [exact Hr | exact Hf].
Defined.

(** C5: when the code differs from the code of every catalog entry,
    [delete_course] flashes the error message, redirects to the catalog page
    and does not touch the course file. *)
Theorem delete_course_unknown_code_unchanged w code :
  Forall (code_differs code) (catalog w) →
  (delete_course code w).1 = Return (redirect (url_for "course_catalog"))
  ∧ flashes (delete_course code w).2
    = flashes w ++ [("error", not_found_message code)]
  ∧ course_file (delete_course code w).2 = course_file w.
Proof.
  intros H. rewrite (delete_course_absent code w H). by repeat split.
Qed.

Lemma delete_course_unknown_code_unchanged_witness :
  Forall (code_differs "CS999") (catalog sample_world)
  ∧ (delete_course "CS999" sample_world).1 = Return (redirect "/catalog")
  ∧ flashes (delete_course "CS999" sample_world).2
    = [("error", "No course found with code 'CS999'.")]
  ∧ course_file (delete_course "CS999" sample_world).2 = Some sample_catalog.
Proof.
  assert (Forall (code_differs "CS999") (catalog sample_world)) as H
    by (by apply sample_catalog_differs).
  split; [exact H|].
  exact (delete_course_unknown_code_unchanged sample_world "CS999" H).
Defined.

(** C7: adding puts the new record at the end of the unchanged list;
    deleting a code from a catalog of courses leaves exactly the entries
    whose code differs, in their order.  The result of a delete is a
    subsequence of the old list, so no entry is rewritten. *)
Theorem add_appends_delete_filters w (data : course) code :
  Forall has_code (catalog w) →
  catalog (save_courses data w).2 = catalog w ++ [data]
  ∧ catalog (delete_course code w).2 = without_code code (catalog w)
  ∧ without_code code (catalog w) `sublist_of` catalog w
  ∧ (∀ c, c ∈ without_code code (catalog w)
          ↔ c ∈ catalog w ∧ c !! "code" ≠ Some code).
Proof.
  intros Hwf. split; [by rewrite save_courses_run|]. split.
  - destruct (occurs_or_differs code _ Hwf) as [Hocc|Hdiff].
    + by rewrite (delete_course_present code w Hwf Hocc).
    + rewrite (delete_course_absent code w Hdiff).
      by rewrite (without_code_differs code _ Hdiff).
  - split; [apply sublist_filter|].
    intros c. unfold without_code. rewrite list_elem_of_filter. tauto.
Qed.

Lemma add_appends_delete_filters_witness :
  Forall has_code (catalog sample_world)
  ∧ catalog (save_courses (sample_course "CS103" "Graphs" "Nair") sample_world).2
    = sample_catalog ++ [sample_course "CS103" "Graphs" "Nair"]
  ∧ catalog (delete_course "CS101" sample_world).2
    = without_code "CS101" sample_catalog.
Proof.
  split; [apply sample_catalog_has_code|].
  destruct (add_appends_delete_filters sample_world
              (sample_course "CS103" "Graphs" "Nair") "CS101"
              sample_catalog_has_code) as (Hadd & Hdel & _).
  split; [exact Hadd | exact Hdel].
Defined.

(** C8: without a course file [load_courses] returns the empty list and
    leaves the world as it is, and every handler that reads the catalog gives
    the same response, flashes and log records as with a file holding the
    empty array, and leaves the same catalog behind. *)
Theorem missing_file_is_empty_catalog fl lg :
  let missing := World None fl lg in
  let empty := World (Some []) fl lg in
  load_courses missing = (Return [], missing)
  ∧ (course_catalog missing).1
    = Return (render_template "course_catalog.html" (courses_context []))
  ∧ same_result (course_catalog missing) (course_catalog empty)
  ∧ (∀ request,
       same_result (add_course request missing) (add_course request empty))
  ∧ (∀ code,
       same_result (course_details code missing) (course_details code empty))
  ∧ (∀ code,
       same_result (delete_course code missing) (delete_course code empty)).
Proof.
  intros missing empty.
  assert (same_view missing empty) as Hview by (by repeat split).
  split; [done|]. split; [done|]. unfold same_result.
  split; [by apply respects_course_catalog|].
  split; [intros request; by apply respects_add_course|].
  split; [intros code; by apply respects_course_details|].
  intros code. by apply respects_delete_course.
Qed.

(** C10: [course_details] renders the first entry, in catalog order, whose
    code is the requested one, whatever follows it (in particular further
    entries with the same code). *)
Theorem course_details_first_match w code pre c post :
  catalog w = pre ++ c :: post →
  Forall (code_differs code) pre →
  c !! "code" = Some code →
  (course_details code w).1
  = Return (render_template "course_details.html" (course_context c)).
Proof.
  intros E Hpre Hc. by rewrite (course_details_first code w pre c post).
Qed.

Lemma course_details_first_match_witness :
  (2 ≤ count_code "CS101" (catalog sample_world))%nat
  ∧ (course_details "CS101" sample_world).1
    = Return (render_template "course_details.html"
                (course_context (sample_course "CS101" "Programming" "Rao"))).
Proof.
  split; [vm_compute; lia|].
  apply (course_details_first_match sample_world "CS101"
           [sample_course "CS102" "Logic" "Iyer"]
           (sample_course "CS101" "Programming" "Rao")
           [sample_course "CS101" "Programming II" "Das"]);
    [reflexivity | | reflexivity].
  repeat constructor. exists "CS102". by split.
Defined.

(** C4 (as amended): for every POST whose form carries the eight fields, if
    a required field is empty once stripped, the handler flashes the error
    message naming it, renders the form again and leaves the course file as
    it was. *)
Theorem add_course_missing_required_flashes w f k :
  complete_form f →
  k ∈ required_fields →
  stripped_field f k = "" →
  (add_course (mkRequest POST f) w).1
  = Return (render_template "add_course.html" no_context)
  ∧ flashes (add_course (mkRequest POST f) w).2
    = flashes w ++ [("error", missing_message (missing_of f))]
  ∧ k ∈ missing_of f
  ∧ course_file (add_course (mkRequest POST f) w).2 = course_file w.
Proof.
  intros Hf Hk Hempty.
  assert (k ∈ missing_of f) as Hin
    by (unfold missing_of; by apply list_elem_of_filter).
  rewrite (add_course_post f w Hf).
  destruct (missing_of f) as [|m rest]; [by apply elem_of_nil in Hin|].
  by repeat split.
Qed.

Lemma add_course_missing_required_flashes_witness :
  let f := sample_form "CS103" "   " "Nair" in
  complete_form f
  ∧ "name" ∈ required_fields
  ∧ stripped_field f "name" = ""
  ∧ (add_course (mkRequest POST f) sample_world).1
    = Return (render_template "add_course.html" no_context)
  ∧ flashes (add_course (mkRequest POST f) sample_world).2
    = [("error", "The following required fields are missing: name")]
  ∧ course_file (add_course (mkRequest POST f) sample_world).2
    = Some sample_catalog.
Proof.
  intros f.
  assert ("name" ∈ required_fields) as Hk
    by apply list_elem_of_further, list_elem_of_here.
  split; [apply sample_form_complete|]. split; [exact Hk|].
  split; [reflexivity|].
  destruct (add_course_missing_required_flashes sample_world f "name"
              (sample_form_complete _ _ _) Hk eq_refl) as (Hr & Hfl & _ & Hc).
  split; [exact Hr|]. split; [exact Hfl | exact Hc].
Defined.

(** C4 as stated fails: a POST that carries only an all-blank [code] field
    has an empty required field, yet the handler is aborted by the missing
    form key [name] before it flashes anything. *)
Lemma add_course_absent_field_counterexample :
  let request := mkRequest POST {[ "code" := "  " ]} in
  form request !! "code" = Some "  "
  ∧ PyStr.strip "  " = ""
  ∧ add_course request sample_world
    = (Raise (BadRequestKeyError "name"), sample_world)
  ∧ flashes (add_course request sample_world).2 = [].
Proof. by vm_compute. Qed.

(** C6 (as amended): for every catalog that holds an entry with a non-empty
    code, a POST that carries the eight fields, with that code and with a
    name and an instructor that are non-empty once stripped, succeeds and
    appends its record, so the catalog holds at least two entries with the
    code. *)
Theorem add_course_duplicate_code_appends w f code :
  occurs code (catalog w) →
  code ≠ "" →
  complete_form f →
  stripped_field f "code" = code →
  stripped_field f "name" ≠ "" →
  stripped_field f "instructor" ≠ "" →
  (add_course (mkRequest POST f) w).1
  = Return (redirect (url_for "course_catalog"))
  ∧ catalog (add_course (mkRequest POST f) w).2
    = catalog w ++ [course_of_form f]
  ∧ course_of_form f !! "code" = Some code
  ∧ (2 ≤ count_code code (catalog (add_course (mkRequest POST f) w).2))%nat.
Proof.
  intros Hocc Hcode Hf Ecode Hname Hinstructor.
  assert (missing_of f = []) as Hnone.
  { unfold missing_of, required_fields. rewrite !filter_cons, filter_nil.
    rewrite !decide_False by congruence. done. }
  assert (course_of_form f !! "code" = Some code) as Hc
    by (by rewrite <- Ecode).
  rewrite (add_course_post f w Hf), Hnone.
  split; [done|]. split; [done|]. split; [done|].
  change (2 ≤ count_code code (catalog w ++ [course_of_form f]))%nat.
  pose proof (count_code_occurs code _ Hocc) as Hone.
  unfold count_code in *. rewrite filter_app, length_app.
  rewrite filter_cons, decide_True by done. simpl. lia.
Qed.

Lemma add_course_duplicate_code_appends_witness :
  let f := sample_form " CS101 " "Programming III" "Sen" in
  occurs "CS101" (catalog sample_world)
  ∧ (add_course (mkRequest POST f) sample_world).1
    = Return (redirect "/catalog")
  ∧ catalog (add_course (mkRequest POST f) sample_world).2
    = sample_catalog ++ [course_of_form f]
  ∧ (2 ≤ count_code "CS101"
           (catalog (add_course (mkRequest POST f) sample_world).2))%nat.
Proof.
  intros f.
  assert (occurs "CS101" (catalog sample_world)) as Hocc.
  { exists (sample_course "CS101" "Programming" "Rao").
    split; [apply list_elem_of_further, list_elem_of_here | reflexivity]. }
  split; [exact Hocc|].
  destruct (add_course_duplicate_code_appends sample_world f "CS101")
    as (Hr & Hcat & _ & Htwo);
    [exact Hocc | done | apply sample_form_complete | reflexivity
    | by vm_compute | by vm_compute |].
  split; [exact Hr|]. split; [exact Hcat | exact Htwo].
Defined.

(** C6 as stated fails at the empty code: the catalog holds an entry whose
    code is empty, and a POST with that code and a non-empty name and
    instructor is turned down by the validation; nothing is appended. *)
Lemma add_course_blank_code_counterexample :
  let w := World (Some [sample_course "" "Seminar" "Bose"]) [] [] in
  let f := sample_form "" "Seminar II" "Bose" in
  occurs "" (catalog w)
  ∧ complete_form f
  ∧ stripped_field f "code" = ""
  ∧ stripped_field f "name" = "Seminar II"
  ∧ stripped_field f "instructor" = "Bose"
  ∧ (add_course (mkRequest POST f) w).1
    = Return (render_template "add_course.html" no_context)
  ∧ flashes (add_course (mkRequest POST f) w).2
    = [("error", "The following required fields are missing: code")]
  ∧ catalog (add_course (mkRequest POST f) w).2 = catalog w.
Proof.
  intros w f. split.
  { exists (sample_course "" "Seminar" "Bose").
    split; [apply list_elem_of_here | reflexivity]. }
  split; [apply sample_form_complete|]. by vm_compute.
Qed.

(** C9: when [add_course] succeeds (it answers with the redirect to the
    catalog), the record it appended has exactly the eight keys, and the
    value under each key is the submitted form value with its leading and
    trailing whitespace removed: the form value is a run of whitespace, the
    stored value, and a run of whitespace, and the stored value neither
    starts nor ends with a whitespace character. *)
Theorem add_course_stored_record request w w' :
  add_course request w = (Return (redirect (url_for "course_catalog")), w') →
  ∃ c : course,
    catalog w' = catalog w ++ [c]
    ∧ dom c = (list_to_set course_fields : gset string)
    ∧ ∀ k, k ∈ course_fields →
        ∃ v l r,
          form request !! k = Some v
          ∧ c !! k = Some (PyStr.strip v)
          ∧ v = l +:+ PyStr.strip v +:+ r
          ∧ PyStr.all_space l = true
          ∧ PyStr.all_space r = true
          ∧ PyStr.stripped (PyStr.strip v) = true.
Proof.
  destruct request as [[|] f]; intros H.
  { unfold add_course in H. cbn [method] in H.
    revert H. run_effects. discriminate. }
  destruct (add_course_post_cases f) as [Hf|(k & _ & _ & Hraise)];
    [|by rewrite Hraise in H].
  rewrite (add_course_post f w Hf) in H.
  destruct (missing_of f); [|discriminate].
  injection H as <-. exists (course_of_form f).
  split; [done|]. split.
  { unfold course_of_form. by rewrite dom_list_to_map_L. }
  intros k Hk. destruct (Hf k Hk) as [v E].
  destruct (PyStrFacts.strip_spec v) as (l & r & Ev & Hl & Hr & Hs).
  exists v, l, r. cbn [form]. repeat split; try done.
  rewrite (course_of_form_lookup f k Hk). unfold stripped_field.
  by rewrite E.
Qed.

Lemma add_course_stored_record_witness :
  let request := mkRequest POST (sample_form "  CS103" "Graphs " " Nair ") in
  let stored : course :=
    list_to_map
      [("code", "CS103"); ("name", "Graphs"); ("instructor", "Nair");
       ("semester", "Fall"); ("schedule", "Mon 10:00"); ("classroom", "A1");
       ("prerequisites", ""); ("grading", "exam")] in
  add_course request sample_world
  = (Return (redirect (url_for "course_catalog")),
     World (Some (sample_catalog ++ [stored])) []
           [LogRecord INFO "course-added"])
  ∧ ∃ c : course,
      sample_catalog ++ [stored] = sample_catalog ++ [c]
      ∧ dom c = (list_to_set course_fields : gset string).
Proof.
  intros request stored.
  assert (add_course request sample_world
          = (Return (redirect (url_for "course_catalog")),
             World (Some (sample_catalog ++ [stored])) []
                   [LogRecord INFO "course-added"])) as Hrun
    by (by vm_compute).
  split; [exact Hrun|].
  destruct (add_course_stored_record request sample_world _ Hrun)
    as (c & Hc & Hdom & _).
  exists c. split; [exact Hc | exact Hdom].
Defined.

(** ** Stored catalogs stay catalogs of courses *)

Lemma is_course_has_code c : is_course c → has_code c.
Proof.
  intros Hc. apply elem_of_dom. rewrite Hc. unfold course_fields.
  set_solver.
Qed.

Lemma course_of_form_is_course f : is_course (course_of_form f).
Proof. unfold is_course, course_of_form. by rewrite dom_list_to_map_L. Qed.

Lemma without_code_is_course code courses :
  Forall is_course courses → Forall is_course (without_code code courses).
Proof.
  rewrite !Forall_forall. intros H c Hc.
  apply list_elem_of_filter in Hc as [_ Hin]. by apply H.
Qed.

Lemma add_course_keeps_courses request w :
  Forall is_course (catalog w) →
  Forall is_course (catalog (add_course request w).2).
Proof.
  intros Hw. destruct request as [[|] f].
  { unfold add_course. cbn [method]. by run_effects. }
  destruct (add_course_post_cases f) as [Hf|(k & _ & _ & Hraise)];
    [|by rewrite Hraise].
  rewrite (add_course_post f w Hf).
  destruct (missing_of f); [|done].
  change (Forall is_course (catalog w ++ [course_of_form f])).
  apply Forall_app. split; [done|].
  constructor; [apply course_of_form_is_course | constructor].
Qed.

Lemma delete_course_keeps_courses code w :
  Forall is_course (catalog w) →
  Forall is_course (catalog (delete_course code w).2).
Proof.
  intros Hw.
  assert (Forall has_code (catalog w)) as Hwf
    by (eapply Forall_impl; [exact Hw | apply is_course_has_code]).
  destruct (occurs_or_differs code _ Hwf) as [Hocc|Hdiff].
  - rewrite (delete_course_present code w Hwf Hocc).
    by apply without_code_is_course.
  - by rewrite (delete_course_absent code w Hdiff).
Qed.

Lemma course_details_keeps_file code w :
  Forall has_code (catalog w) →
  course_file (course_details code w).2 = course_file w.
Proof.
  intros Hwf. destruct (occurs_or_differs code _ Hwf) as [Hocc|Hdiff].
  - destruct (occurs_first code _ Hwf Hocc) as (pre & c & post & E & Hp & Hc).
    by rewrite (course_details_first code w pre c post E Hp Hc).
  - by rewrite (course_details_absent code w Hdiff).
Qed.

(** Every handler leaves a catalog of Course records when it starts from
    one; the catalog of a missing file is one. *)
Theorem handlers_keep_catalog_of_courses w :
  Forall is_course (catalog w) →
  Forall is_course (catalog (course_catalog w).2)
  ∧ (∀ request, Forall is_course (catalog (add_course request w).2))
  ∧ (∀ code, Forall is_course (catalog (course_details code w).2))
  ∧ (∀ code, Forall is_course (catalog (delete_course code w).2)).
Proof.
  intros Hw. split.
  { unfold course_catalog. run_with load_courses_catalog. by run_effects. }
  split; [intros request; by apply add_course_keeps_courses|].
  split; [|intros code; by apply delete_course_keeps_courses].
  intros code. unfold catalog at 1.
  rewrite course_details_keeps_file; [exact Hw|].
  eapply Forall_impl; [exact Hw | apply is_course_has_code].
Qed.

Lemma handlers_keep_catalog_of_courses_witness :
  Forall is_course (catalog (World None [] []))
  ∧ Forall is_course
      (catalog (add_course
                  (mkRequest POST (sample_form " CS101 " "Programming" "Rao"))
                  (World None [] [])).2)
  ∧ Forall is_course (catalog sample_world)
  ∧ Forall is_course (catalog (delete_course "CS101" sample_world).2).
Proof.
  assert (Forall is_course (catalog (World None [] []))) as Hnone
    by constructor.
  assert (Forall is_course (catalog sample_world)) as Hsample
    by (repeat constructor; unfold is_course, sample_course;
        by rewrite dom_list_to_map_L).
  split; [exact Hnone|]. split.
  { by apply (handlers_keep_catalog_of_courses (World None [] []) Hnone). }
  split; [exact Hsample|].
  by apply (handlers_keep_catalog_of_courses sample_world Hsample).
Defined.

(** * Further properties of the handlers *)

(** ** Relations every step of a handler keeps *)

Section Preserves.
Variable R : world → world → Prop.
Hypothesis R_refl : ∀ w, R w w.
Hypothesis R_trans : ∀ w1 w2 w3, R w1 w2 → R w2 w3 → R w1 w3.
Hypothesis R_flash : ∀ category message w, R w (flashed category message w).
Hypothesis R_log : ∀ lvl ev w, R w (logged lvl ev w).

Lemma preserves_ret {A} (a : A) : preserves R (ret a).
Proof. intros w. apply R_refl. Qed.

Lemma preserves_raise {A} e : preserves R (@raise A e).
Proof. intros w. apply R_refl. Qed.

Lemma preserves_bind {A B} (m : Flask A) (k : A → Flask B) :
  preserves R m → (∀ a, preserves R (k a)) → preserves R (bind m k).
Proof.
  intros Hm Hk w. specialize (Hm w). unfold bind.
  destruct (m w) as [[a|e] w']; simpl in *; [|done].
  eapply R_trans; [exact Hm | apply Hk].
Qed.

Lemma preserves_getitem d key : preserves R (getitem d key).
Proof.
  unfold getitem.
  destruct (d !! key); [apply preserves_ret | apply preserves_raise].
Qed.

Lemma preserves_form_getitem request key :
  preserves R (form_getitem request key).
Proof.
  unfold form_getitem.
  destruct (form request !! key); [apply preserves_ret | apply preserves_raise].
Qed.

Lemma preserves_load_courses : preserves R load_courses.
Proof. intros w. rewrite load_courses_catalog. apply R_refl. Qed.

Lemma preserves_flash message category : preserves R (flash message category).
Proof. intros w. apply R_flash. Qed.

Lemma preserves_logger_emit lvl ev : preserves R (logger_emit lvl ev).
Proof. intros w. apply R_log. Qed.

Lemma preserves_comprehension {A} (keep : A → Flask bool) xs :
  (∀ x, preserves R (keep x)) → preserves R (comprehension keep xs).
Proof.
  intros Hk. induction xs as [|x rest IH]; simpl.
  - apply preserves_ret.
  - apply preserves_bind; [apply Hk|]. intros k.
    apply preserves_bind; [apply IH|]. intros kept. apply preserves_ret.
Qed.

Lemma preserves_next_with_code courses code :
  preserves R (next_with_code courses code).
Proof.
  induction courses as [|c rest IH]; simpl.
  - apply preserves_ret.
  - apply preserves_bind; [apply preserves_getitem|]. intros k.
    destruct (bool_decide (k = code)); [apply preserves_ret | apply IH].
Qed.

Ltac preserving :=
  repeat first
    [ apply preserves_ret
    | apply preserves_raise
    | apply preserves_load_courses
    | apply preserves_flash
    | apply preserves_logger_emit
    | apply preserves_getitem
    | apply preserves_form_getitem
    | apply preserves_next_with_code
    | apply preserves_comprehension; intros ?
    | apply preserves_bind; [|intros ?]
    | match goal with |- preserves _ (match ?x with _ => _ end) =>
        destruct x end
    | match goal with |- preserves _ (if ?x then _ else _) =>
        destruct x end ].

Lemma preserves_index : preserves R index.
Proof. unfold index, logger_info. preserving. Qed.

Lemma preserves_manual_trace : preserves R manual_trace.
Proof. unfold manual_trace, logger_info. preserving. Qed.

Lemma preserves_course_catalog : preserves R course_catalog.
Proof. unfold course_catalog, logger_info. preserving. Qed.

Lemma preserves_course_details code : preserves R (course_details code).
Proof.
  unfold course_details, course_not_found, logger_info, logger_warning.
  preserving.
Qed.

Lemma preserves_add_course_get f : preserves R (add_course (mkRequest GET f)).
Proof. unfold add_course, logger_info. cbn [method]. preserving. Qed.

(** The handlers that write the course file need the relation to hold
    across the write as well. *)
Hypothesis R_dump :
  ∀ courses w, R w (World (Some courses) (flashes w) (log_output w)).

Lemma preserves_dump_courses courses : preserves R (dump_courses courses).
Proof. intros w. apply R_dump. Qed.

Lemma preserves_add_course request : preserves R (add_course request).
Proof.
  unfold add_course, save_courses, logger_info, logger_warning.
  destruct (method request); preserving; apply preserves_dump_courses.
Qed.

Lemma preserves_delete_course code : preserves R (delete_course code).
Proof.
  unfold delete_course, keeps, logger_info.
  preserving; apply preserves_dump_courses.
Qed.

End Preserves.

Lemma extends_refl w : extends w w.
Proof. by split. Qed.

Lemma extends_trans w1 w2 w3 : extends w1 w2 → extends w2 w3 → extends w1 w3.
Proof. intros [? ?] [? ?]. split; by etrans. Qed.

Lemma extends_flashed category message w :
  extends w (flashed category message w).
Proof. split; [by apply prefix_app_r | done]. Qed.

Lemma extends_logged lvl ev w : extends w (logged lvl ev w).
Proof. split; [done | by apply prefix_app_r]. Qed.

Lemma extends_dump courses w :
  extends w (World (Some courses) (flashes w) (log_output w)).
Proof. by split. Qed.

Lemma same_file_trans w1 w2 w3 :
  same_file w1 w2 → same_file w2 w3 → same_file w1 w3.
Proof. unfold same_file. congruence. Qed.

(** The handlers other than a POST to [add_course] and [delete_course] never
    write the course file: it is the same after the request as before, for
    every stored list, also when the handler raises. *)
Theorem read_only_handlers_keep_course_file w :
  course_file (index w).2 = course_file w
  ∧ course_file (course_catalog w).2 = course_file w
  ∧ (∀ f, course_file (add_course (mkRequest GET f) w).2 = course_file w)
  ∧ (∀ code, course_file (course_details code w).2 = course_file w)
  ∧ course_file (manual_trace w).2 = course_file w.
Proof.
  assert (∀ A (m : Flask A),
            preserves same_file m → course_file (m w).2 = course_file w)
    as Hfile by (intros A m Hm; apply Hm).
  split; [apply Hfile, preserves_index; by eauto using same_file_trans|].
  split; [apply Hfile, preserves_course_catalog;
          by eauto using same_file_trans|].
  split; [intros f; apply Hfile, preserves_add_course_get;
          by eauto using same_file_trans|].
  split; [intros code; apply Hfile, preserves_course_details;
          by eauto using same_file_trans|].
  apply Hfile, preserves_manual_trace; by eauto using same_file_trans.
Qed.

(** No handler drops or reorders a flashed message or a log record: the
    flashes and the log after a request start with those before it, for
    every request and stored list, also when the handler raises. *)
Theorem handlers_only_append_flashes_and_log w :
  extends w (index w).2
  ∧ extends w (course_catalog w).2
  ∧ (∀ request, extends w (add_course request w).2)
  ∧ (∀ code, extends w (course_details code w).2)
  ∧ (∀ code, extends w (delete_course code w).2)
  ∧ extends w (manual_trace w).2.
Proof.
  pose proof extends_refl. pose proof extends_trans.
  pose proof extends_flashed. pose proof extends_logged.
  pose proof extends_dump.
  split; [by apply preserves_index|].
  split; [by apply preserves_course_catalog|].
  split; [intros request; by apply preserves_add_course|].
  split; [intros code; by apply preserves_course_details|].
  split; [intros code; by apply preserves_delete_course|].
  by apply preserves_manual_trace.
Qed.

(** ** The scans on arbitrary stored lists *)

Lemma getitem_missing (c : course) key w :
  c !! key = None → getitem c key w = (Raise (KeyError key), w).
Proof. intros E. unfold getitem. by rewrite E. Qed.

Lemma has_or_lacks (courses : list course) :
  Forall has_code courses ∨ lacks_code courses.
Proof.
  induction courses as [|c rest [IH|IH]].
  - left. constructor.
  - destruct (c !! "code") as [k|] eqn:E.
    + left. constructor; [by exists k | done].
    + right. by apply Exists_cons_hd.
  - right. by apply Exists_cons_tl.
Qed.

(** What [next] can do on any list: stop at the first entry with the code,
    run off the end, or hit an entry without a code before either. *)
Lemma next_with_code_cases courses code w :
  (∃ pre c post, courses = pre ++ c :: post
                 ∧ Forall (code_differs code) pre ∧ c !! "code" = Some code
                 ∧ next_with_code courses code w = (Return (Some c), w))
  ∨ (Forall (code_differs code) courses
     ∧ next_with_code courses code w = (Return None, w))
  ∨ (∃ pre bad post, courses = pre ++ bad :: post
                     ∧ Forall (code_differs code) pre ∧ bad !! "code" = None
                     ∧ next_with_code courses code w
                       = (Raise (KeyError "code"), w)).
Proof.
  induction courses as [|d rest IH].
  { right. left. by split. }
  destruct (d !! "code") as [k|] eqn:E.
  - destruct (decide (k = code)) as [->|Hne].
    + left. exists [], d, rest. repeat split; [done|done|].
      by apply (next_with_code_first code []).
    + assert (code_differs code d) as Hd by (by exists k).
      assert (∀ o, next_with_code rest code w = (o, w) →
                   next_with_code (d :: rest) code w = (o, w)) as Hstep.
      { intros o Ho. simpl. erewrite bind_return by (by apply getitem_code).
        by rewrite bool_decide_eq_false_2. }
      destruct IH as [(pre & c & post & -> & Hpre & Hc & Hrun)
                     |[[Hall Hrun]|(pre & bad & post & -> & Hpre & Hb & Hrun)]].
      * left. exists (d :: pre), c, post. repeat split; auto.
      * right. left. split; auto.
      * right. right. exists (d :: pre), bad, post. repeat split; auto.
  - right. right. exists [], d, rest. repeat split; [done|done|].
    simpl. by apply bind_raise, getitem_missing.
Qed.

Lemma comprehension_keeps_lacks code courses w :
  lacks_code courses →
  comprehension (keeps code) courses w = (Raise (KeyError "code"), w).
Proof.
  induction courses as [|c rest IH]; intros H; [by apply Exists_nil in H|].
  simpl. destruct (c !! "code") as [k|] eqn:E.
  - apply Exists_cons in H as [H|H]; [congruence|].
    erewrite bind_return.
    2: { unfold keeps. erewrite bind_return by (by apply getitem_code).
         reflexivity. }
    by apply bind_raise, IH.
  - apply bind_raise. unfold keeps. by apply bind_raise, getitem_missing.
Qed.

(** [delete_course] when the scan for the entry succeeds but the list has an
    entry without a code: the comprehension raises before the file is
    opened for writing. *)
Lemma delete_course_lacks code w pre c post :
  catalog w = pre ++ c :: post →
  Forall (code_differs code) pre →
  c !! "code" = Some code →
  lacks_code (catalog w) →
  delete_course code w = (Raise (KeyError "code"), w).
Proof.
  intros E Hpre Hc Hbad. unfold delete_course.
  run_with load_courses_catalog.
  erewrite bind_return by (rewrite E; apply next_with_code_first; eauto).
  rewrite (truthy_course_code c code Hc).
  apply bind_raise. apply bind_raise. by apply comprehension_keeps_lacks.
Qed.

Lemma next_with_code_raises pre bad post code w :
  Forall (code_differs code) pre →
  bad !! "code" = None →
  next_with_code (pre ++ bad :: post) code w = (Raise (KeyError "code"), w).
Proof.
  intros Hpre Hb. induction Hpre as [|d rest [k [E Hne]] _ IH]; simpl.
  - by apply bind_raise, getitem_missing.
  - erewrite bind_return by (by apply getitem_code).
    by rewrite bool_decide_eq_false_2.
Qed.

Lemma delete_course_raises_early code w pre bad post :
  catalog w = pre ++ bad :: post →
  Forall (code_differs code) pre →
  bad !! "code" = None →
  delete_course code w = (Raise (KeyError "code"), w).
Proof.
  intros E Hpre Hb. unfold delete_course.
  run_with load_courses_catalog. apply bind_raise.
  rewrite E. by apply next_with_code_raises.
Qed.

Lemma course_details_raises_early code w pre bad post :
  catalog w = pre ++ bad :: post →
  Forall (code_differs code) pre →
  bad !! "code" = None →
  course_details code w = (Raise (KeyError "code"), w).
Proof.
  intros E Hpre Hb. unfold course_details.
  run_with load_courses_catalog. apply bind_raise.
  rewrite E. by apply next_with_code_raises.
Qed.

Lemma delete_course_file_cases code w :
  course_file (delete_course code w).2 = course_file w
  ∨ course_file (delete_course code w).2
    = Some (without_code code (catalog w)).
Proof.
  destruct (next_with_code_cases (catalog w) code w)
    as [(pre & c & post & E & Hpre & Hc & _)
       |[[Hall _]|(pre & bad & post & E & Hpre & Hb & _)]].
  - destruct (has_or_lacks (catalog w)) as [Hwf|Hbad].
    + right. rewrite (delete_course_present code w Hwf); [done|].
      exists c. split; [|done]. rewrite E. set_solver.
    + left. by rewrite (delete_course_lacks code w pre c post).
  - left. by rewrite (delete_course_absent code w Hall).
  - left. by rewrite (delete_course_raises_early code w pre bad post).
Qed.

Lemma add_course_cases request w :
  (∃ f, request = mkRequest POST f ∧ complete_form f ∧ missing_of f = []
        ∧ add_course request w
          = (Return (redirect "/catalog"),
             logged INFO "course-added"
               (World (Some (catalog w ++ [course_of_form f]))
                      (flashes w) (log_output w))))
  ∨ (course_file (add_course request w).2 = course_file w
     ∧ (add_course request w).1 ≠ Return (redirect "/catalog")).
Proof.
  destruct request as [[|] f].
  { right. unfold add_course. cbn [method]. by run_effects. }
  destruct (add_course_post_cases f) as [Hf|(k & _ & _ & Hraise)];
    [|right; by rewrite Hraise].
  pose proof (add_course_post f w Hf) as Hrun.
  destruct (missing_of f) as [|m rest] eqn:Hm.
  - left. by exists f.
  - right. by rewrite Hrun.
Qed.

(** On every stored list, also one with entries that lack a code,
    [delete_course] either leaves the list as it is or stores the entries
    whose code is not the given one; what it stores is a subsequence of the
    old list, and an entry that disappears has the given code. *)
Theorem delete_course_stores_subsequence w code :
  (catalog (delete_course code w).2 = catalog w
   ∨ catalog (delete_course code w).2 = without_code code (catalog w))
  ∧ catalog (delete_course code w).2 `sublist_of` catalog w
  ∧ (∀ c, c ∈ catalog w → c ∉ catalog (delete_course code w).2 →
          c !! "code" = Some code).
Proof.
  assert (catalog (delete_course code w).2 = catalog w
          ∨ catalog (delete_course code w).2 = without_code code (catalog w))
    as [E|E].
  { destruct (delete_course_file_cases code w) as [E|E]; unfold catalog at 1 3;
      rewrite E; [by left | by right]. }
  - rewrite E. repeat split; [by left | done | done].
  - rewrite E. repeat split; [by right | apply sublist_filter |].
    intros c Hin Hout.
    destruct (decide (c !! "code" = Some code)) as [|Hne]; [done|].
    exfalso. apply Hout. by apply list_elem_of_filter.
Qed.

(** For every request and stored list, [add_course] writes the course file
    only when it answers with the redirect, and then it appends the record
    of the form; with any other outcome the file is left as it was. *)
Theorem add_course_writes_only_on_success request w :
  ((add_course request w).1 = Return (redirect (url_for "course_catalog"))
   ∧ method request = POST
   ∧ catalog (add_course request w).2
     = catalog w ++ [course_of_form (form request)])
  ∨ ((add_course request w).1 ≠ Return (redirect (url_for "course_catalog"))
     ∧ course_file (add_course request w).2 = course_file w).
Proof.
  destruct (add_course_cases request w)
    as [(f & -> & _ & _ & Hrun)|[Hfile Hresp]].
  - left. by rewrite Hrun.
  - right. by split.
Qed.

(** Whenever [course_details] renders a template, on any stored list, it is
    the detail template with the first entry, in list order, whose code is
    the requested one; it never shows an entry with another code. *)
Theorem course_details_renders_only_first_match code w template context w' :
  course_details code w = (Return (render_template template context), w') →
  template = "course_details.html"
  ∧ ∃ pre c post,
      context = course_context c
      ∧ catalog w = pre ++ c :: post
      ∧ Forall (code_differs code) pre
      ∧ c !! "code" = Some code.
Proof.
  intros H.
  destruct (next_with_code_cases (catalog w) code w)
    as [(pre & c & post & E & Hpre & Hc & _)
       |[[Hall _]|(pre & bad & post & E & Hpre & Hb & _)]].
  - rewrite (course_details_first code w pre c post E Hpre Hc) in H.
    simplify_eq. split; [done|]. by exists pre, c, post.
  - by rewrite (course_details_absent code w Hall) in H.
  - by rewrite (course_details_raises_early code w pre bad post) in H.
Qed.

Lemma course_details_renders_only_first_match_witness :
  ∃ pre c post,
    course_context (sample_course "CS101" "Programming" "Rao")
    = course_context c
    ∧ catalog sample_world = pre ++ c :: post
    ∧ Forall (code_differs "CS101") pre
    ∧ c !! "code" = Some "CS101".
Proof.
  assert (course_details "CS101" sample_world
          = (Return (render_template "course_details.html"
                       (course_context
                          (sample_course "CS101" "Programming" "Rao"))),
             logged INFO "course-details-viewed" sample_world)) as Hrun
    by (by vm_compute).
  exact (proj2 (course_details_renders_only_first_match _ _ _ _ _ Hrun)).
Defined.

(** A stored entry without a ['code'] key that comes before any entry with
    the requested code makes [course_details] and [delete_course] raise
    [KeyError] for that key; nothing is flashed, logged or written. *)
Theorem entry_without_code_before_match_raises code w pre bad post :
  catalog w = pre ++ bad :: post →
  Forall (code_differs code) pre →
  bad !! "code" = None →
  course_details code w = (Raise (KeyError "code"), w)
  ∧ delete_course code w = (Raise (KeyError "code"), w).
Proof.
  intros E Hpre Hb. split.
  - by apply (course_details_raises_early code w pre bad post).
  - by apply (delete_course_raises_early code w pre bad post).
Qed.

Lemma entry_without_code_before_match_raises_witness :
  let w := World (Some (no_code_entry :: sample_catalog)) [] [] in
  course_details "CS101" w = (Raise (KeyError "code"), w)
  ∧ delete_course "CS101" w = (Raise (KeyError "code"), w).
Proof.
  intros w.
  apply (entry_without_code_before_match_raises "CS101" w []
           no_code_entry sample_catalog);
    [reflexivity | constructor | reflexivity].
Defined.

(** A stored entry without a ['code'] key that comes after the first entry
    with the requested code is never reached by [course_details], which
    renders that first entry; [delete_course] scans the whole list, raises
    [KeyError] and leaves the file, the flashes and the log untouched. *)
Theorem entry_without_code_after_match code w pre c post :
  catalog w = pre ++ c :: post →
  Forall (code_differs code) pre →
  c !! "code" = Some code →
  lacks_code post →
  (course_details code w).1
  = Return (render_template "course_details.html" (course_context c))
  ∧ delete_course code w = (Raise (KeyError "code"), w).
Proof.
  intros E Hpre Hc Hbad. split.
  - by rewrite (course_details_first code w pre c post).
  - apply (delete_course_lacks code w pre c post); [done..|].
    rewrite E. apply Exists_app. right. by apply Exists_cons_tl.
Qed.

Lemma entry_without_code_after_match_witness :
  let w := World (Some (sample_catalog ++ [no_code_entry])) [] [] in
  (course_details "CS102" w).1
  = Return (render_template "course_details.html"
              (course_context (sample_course "CS102" "Logic" "Iyer")))
  ∧ delete_course "CS102" w = (Raise (KeyError "code"), w).
Proof.
  intros w.
  apply (entry_without_code_after_match "CS102" w []
           (sample_course "CS102" "Logic" "Iyer")
           [sample_course "CS101" "Programming" "Rao";
            sample_course "CS101" "Programming II" "Das"; no_code_entry]);
    [reflexivity | constructor | reflexivity |].
  do 2 apply Exists_cons_tl. by apply Exists_cons_hd.
Defined.

(** ** How the handlers compose on catalogs of courses *)

Lemma next_with_code_wf code courses w :
  Forall has_code courses →
  next_with_code courses code w = (Return (first_with_code code courses), w).
Proof.
  induction 1 as [|c rest [k E] _ IH]; [done|].
  simpl. erewrite bind_return by (by apply getitem_code). rewrite E.
  destruct (decide (k = code)) as [->|Hne].
  - by rewrite !bool_decide_eq_true_2.
  - rewrite !bool_decide_eq_false_2 by congruence. exact IH.
Qed.

Lemma first_with_code_code code courses c :
  first_with_code code courses = Some c → c !! "code" = Some code.
Proof.
  induction courses as [|d rest IH]; simpl; [done|].
  case_bool_decide; [|done]. by intros [= <-].
Qed.

Lemma first_with_code_app code l1 l2 :
  first_with_code code (l1 ++ l2)
  = match first_with_code code l1 with
    | Some c => Some c
    | None => first_with_code code l2
    end.
Proof.
  induction l1 as [|d rest IH]; simpl; [done|]. by case_bool_decide.
Qed.

Lemma first_with_code_occurs code courses :
  occurs code courses → is_Some (first_with_code code courses).
Proof.
  intros [c [Hin Hc]]. induction courses as [|d rest IH]; simpl.
  - by apply elem_of_nil in Hin.
  - case_bool_decide; [by eexists|].
    apply elem_of_cons in Hin as [->|Hin]; [done | by apply IH].
Qed.

Lemma first_with_code_differs code courses :
  Forall (code_differs code) courses → first_with_code code courses = None.
Proof.
  induction 1 as [|c rest [k [E Hne]] _ IH]; simpl; [done|].
  by rewrite bool_decide_eq_false_2 by congruence.
Qed.

Lemma first_with_code_without code code' courses :
  code' ≠ code →
  first_with_code code' (without_code code courses)
  = first_with_code code' courses.
Proof.
  intros Hne. unfold without_code.
  induction courses as [|c rest IH]; [done|].
  rewrite filter_cons. simpl.
  destruct (decide (c !! "code" ≠ Some code)) as [Hkeep|Hdrop].
  - simpl. by rewrite IH.
  - rewrite IH. rewrite bool_decide_eq_false_2; [done|].
    intros E. apply Hdrop. congruence.
Qed.

(** The response of [course_details] on a catalog of courses. *)
Lemma course_details_wf code w :
  Forall has_code (catalog w) →
  (course_details code w).1
  = match first_with_code code (catalog w) with
    | Some c =>
        Return (render_template "course_details.html" (course_context c))
    | None => Return (redirect "/catalog")
    end.
Proof.
  intros Hwf. unfold course_details.
  run_with load_courses_catalog.
  erewrite bind_return by (by apply next_with_code_wf).
  destruct (first_with_code code (catalog w)) as [c|] eqn:E.
  - rewrite (truthy_course_code c code (first_with_code_code _ _ _ E)).
    by run_effects.
  - by rewrite course_not_found_run.
Qed.

Lemma delete_course_catalog code w :
  Forall has_code (catalog w) →
  catalog (delete_course code w).2 = without_code code (catalog w).
Proof.
  intros Hwf. destruct (occurs_or_differs code _ Hwf) as [Hocc|Hdiff].
  - by rewrite (delete_course_present code w Hwf Hocc).
  - rewrite (delete_course_absent code w Hdiff).
    by rewrite (without_code_differs code _ Hdiff).
Qed.

Lemma without_code_has_code code courses :
  Forall has_code courses → Forall has_code (without_code code courses).
Proof.
  rewrite !Forall_forall. intros H c Hc.
  apply list_elem_of_filter in Hc as [_ Hin]. by apply H.
Qed.

Lemma without_code_all_differ code courses :
  Forall has_code courses →
  Forall (code_differs code) (without_code code courses).
Proof.
  rewrite !Forall_forall. intros H c Hc.
  apply list_elem_of_filter in Hc as [Hne Hin].
  destruct (H c Hin) as [k E]. exists k. split; [done | congruence].
Qed.

Lemma valid_form_missing f : valid_form f → missing_of f = [].
Proof.
  intros [_ Hreq]. unfold missing_of, required_fields in *.
  rewrite !filter_cons, filter_nil.
  rewrite !decide_False; [done|apply Hreq..]; set_solver.
Qed.

Lemma add_course_valid f w :
  valid_form f →
  add_course (mkRequest POST f) w
  = (Return (redirect "/catalog"),
     logged INFO "course-added"
       (World (Some (catalog w ++ [course_of_form f]))
              (flashes w) (log_output w))).
Proof.
  intros Hf. rewrite (add_course_post f w (proj1 Hf)).
  by rewrite (valid_form_missing f Hf).
Qed.

Lemma course_of_form_code f :
  course_of_form f !! "code" = Some (stripped_field f "code").
Proof. reflexivity. Qed.

Lemma sample_form_valid code name instructor :
  PyStr.strip code ≠ "" → PyStr.strip name ≠ "" →
  PyStr.strip instructor ≠ "" →
  valid_form (sample_form code name instructor).
Proof.
  intros Hc Hn Hi. split; [apply sample_form_complete|].
  intros k Hk. unfold required_fields in Hk.
  repeat (apply elem_of_cons in Hk as [->|Hk]; [done|]).
  by apply elem_of_nil in Hk.
Qed.

(** After [delete_course] on a catalog of courses no entry with the code is
    left, so deleting the same code again changes nothing and flashes the
    not-found error, and the detail page of the code redirects. *)
Theorem delete_course_twice w code :
  Forall has_code (catalog w) →
  Forall (code_differs code) (catalog (delete_course code w).2)
  ∧ catalog (delete_course code (delete_course code w).2).2
    = catalog (delete_course code w).2
  ∧ flashes (delete_course code (delete_course code w).2).2
    = flashes (delete_course code w).2 ++ [("error", not_found_message code)]
  ∧ (course_details code (delete_course code w).2).1
    = Return (redirect (url_for "course_catalog")).
Proof.
  intros Hwf.
  assert (Forall (code_differs code) (catalog (delete_course code w).2))
    as Hgone.
  { rewrite (delete_course_catalog code w Hwf).
    by apply without_code_all_differ. }
  split; [exact Hgone|].
  rewrite (delete_course_absent code _ Hgone).
  rewrite (course_details_absent code _ Hgone).
  by repeat split.
Qed.

Lemma delete_course_twice_witness :
  Forall has_code (catalog sample_world)
  ∧ catalog (delete_course "CS101"
               (delete_course "CS101" sample_world).2).2
    = catalog (delete_course "CS101" sample_world).2
  ∧ (course_details "CS101" (delete_course "CS101" sample_world).2).1
    = Return (redirect "/catalog").
Proof.
  split; [apply sample_catalog_has_code|].
  destruct (delete_course_twice sample_world "CS101"
              sample_catalog_has_code) as (_ & Hcat & _ & Hdet).
  split; [exact Hcat | exact Hdet].
Defined.

(** Deleting a code from a catalog of courses does not change what the
    detail page of any other code answers. *)
Theorem delete_course_keeps_other_details w code code' :
  Forall has_code (catalog w) →
  code' ≠ code →
  (course_details code' (delete_course code w).2).1
  = (course_details code' w).1.
Proof.
  intros Hwf Hne.
  rewrite (course_details_wf code' w Hwf).
  rewrite course_details_wf.
  - rewrite (delete_course_catalog code w Hwf).
    by rewrite first_with_code_without.
  - rewrite (delete_course_catalog code w Hwf).
    by apply without_code_has_code.
Qed.

Lemma delete_course_keeps_other_details_witness :
  Forall has_code (catalog sample_world)
  ∧ (course_details "CS102" (delete_course "CS101" sample_world).2).1
    = Return (render_template "course_details.html"
                (course_context (sample_course "CS102" "Logic" "Iyer"))).
Proof.
  split; [apply sample_catalog_has_code|].
  rewrite (delete_course_keeps_other_details sample_world "CS101" "CS102"
             sample_catalog_has_code); [reflexivity | done].
Defined.

(** Whatever is submitted to [add_course], the detail page of a code that
    already occurs in a catalog of courses answers as before: a record added
    with the same code is stored behind the older one and is not shown. *)
Theorem add_course_keeps_existing_details w request code :
  Forall has_code (catalog w) →
  occurs code (catalog w) →
  (course_details code (add_course request w).2).1
  = (course_details code w).1.
Proof.
  intros Hwf Hocc.
  rewrite (course_details_wf code w Hwf).
  destruct (add_course_cases request w)
    as [(f & -> & _ & _ & Hrun)|[Hfile _]].
  - assert (catalog (add_course (mkRequest POST f) w).2
            = catalog w ++ [course_of_form f]) as E by (by rewrite Hrun).
    rewrite course_details_wf; rewrite E.
    + rewrite first_with_code_app.
      by destruct (first_with_code_occurs code _ Hocc) as [c ->].
    + apply Forall_app. split; [done|].
      constructor; [|constructor].
      exists (stripped_field f "code"). apply course_of_form_code.
  - assert (catalog (add_course request w).2 = catalog w) as E
      by (unfold catalog; by rewrite Hfile).
    rewrite course_details_wf; rewrite E; done.
Qed.

Lemma add_course_keeps_existing_details_witness :
  let request :=
    mkRequest POST (sample_form "CS101" "Programming III" "Sen") in
  occurs "CS101" (catalog sample_world)
  ∧ (add_course request sample_world).1 = Return (redirect "/catalog")
  ∧ (course_details "CS101" (add_course request sample_world).2).1
    = Return (render_template "course_details.html"
                (course_context (sample_course "CS101" "Programming" "Rao"))).
Proof.
  intros request.
  assert (occurs "CS101" (catalog sample_world)) as Hocc.
  { exists (sample_course "CS101" "Programming" "Rao").
    split; [apply list_elem_of_further, list_elem_of_here | reflexivity]. }
  split; [exact Hocc|]. split; [by vm_compute|].
  rewrite (add_course_keeps_existing_details sample_world request "CS101"
             sample_catalog_has_code Hocc).
  by vm_compute.
Defined.

(** A course added with a code that no stored entry has is the one its
    detail page then renders. *)
Theorem add_course_then_details w f :
  valid_form f →
  Forall (code_differs (stripped_field f "code")) (catalog w) →
  (course_details (stripped_field f "code")
     (add_course (mkRequest POST f) w).2).1
  = Return (render_template "course_details.html"
              (course_context (course_of_form f))).
Proof.
  intros Hf Hfresh. rewrite (add_course_valid f w Hf).
  by rewrite (course_details_first (stripped_field f "code") _
                (catalog w) (course_of_form f) []).
Qed.

Lemma add_course_then_details_witness :
  let f := sample_form " CS103 " "Graphs" "Nair" in
  valid_form f
  ∧ stripped_field f "code" = "CS103"
  ∧ (course_details "CS103" (add_course (mkRequest POST f) sample_world).2).1
    = Return (render_template "course_details.html"
                (course_context (course_of_form f))).
Proof.
  intros f.
  assert (valid_form f) as Hf by (by apply sample_form_valid).
  split; [exact Hf|]. split; [reflexivity|].
  apply (add_course_then_details sample_world f Hf).
  by apply sample_catalog_differs.
Defined.

(** Adding a course and then deleting its code leaves the old catalog
    without the entries of that code; when the code was not in the catalog
    the two requests together restore the old catalog. *)
Theorem add_course_then_delete w f :
  valid_form f →
  Forall has_code (catalog w) →
  catalog (delete_course (stripped_field f "code")
             (add_course (mkRequest POST f) w).2).2
  = without_code (stripped_field f "code") (catalog w)
  ∧ (Forall (code_differs (stripped_field f "code")) (catalog w) →
     catalog (delete_course (stripped_field f "code")
                (add_course (mkRequest POST f) w).2).2
     = catalog w).
Proof.
  intros Hf Hwf.
  assert (catalog (add_course (mkRequest POST f) w).2
          = catalog w ++ [course_of_form f]) as E
    by (by rewrite (add_course_valid f w Hf)).
  rewrite delete_course_catalog; rewrite E.
  - assert (without_code (stripped_field f "code")
              (catalog w ++ [course_of_form f])
            = without_code (stripped_field f "code") (catalog w)) as ->.
    { unfold without_code. rewrite filter_app, filter_cons, filter_nil.
      rewrite decide_False by (rewrite course_of_form_code; naive_solver).
      by rewrite app_nil_r. }
    split; [done|].
    intros Hfresh. by apply without_code_differs.
  - apply Forall_app. split; [done|].
    constructor; [|constructor].
    exists (stripped_field f "code"). apply course_of_form_code.
Qed.

Lemma add_course_then_delete_witness :
  let f := sample_form " CS103 " "Graphs" "Nair" in
  valid_form f
  ∧ Forall has_code (catalog sample_world)
  ∧ catalog (delete_course "CS103"
               (add_course (mkRequest POST f) sample_world).2).2
    = sample_catalog.
Proof.
  intros f.
  assert (valid_form f) as Hf by (by apply sample_form_valid).
  split; [exact Hf|]. split; [apply sample_catalog_has_code|].
  apply (add_course_then_delete sample_world f Hf sample_catalog_has_code).
  by apply sample_catalog_differs.
Defined.

Lemma course_catalog_run w :
  course_catalog w
  = (Return (render_template "course_catalog.html"
               (courses_context (catalog w))),
     logged INFO "catalog-page" w).
Proof. unfold course_catalog. run_with load_courses_catalog. by run_effects. Qed.

(** The catalog page a redirect leads to lists what the request before it
    stored: after a successful add the old entries followed by the new
    record, after a delete the entries with another code. *)
Theorem course_catalog_after_add_and_delete w f code :
  valid_form f →
  Forall has_code (catalog w) →
  (course_catalog (add_course (mkRequest POST f) w).2).1
  = Return (render_template "course_catalog.html"
              (courses_context (catalog w ++ [course_of_form f])))
  ∧ (course_catalog (delete_course code w).2).1
    = Return (render_template "course_catalog.html"
                (courses_context (without_code code (catalog w)))).
Proof.
  intros Hf Hwf. rewrite !course_catalog_run. cbn [fst]. split.
  - by rewrite (add_course_valid f w Hf).
  - by rewrite (delete_course_catalog code w Hwf).
Qed.

Lemma course_catalog_after_add_and_delete_witness :
  let f := sample_form " CS103 " "Graphs" "Nair" in
  valid_form f
  ∧ Forall has_code (catalog sample_world)
  ∧ (course_catalog (add_course (mkRequest POST f) sample_world).2).1
    = Return (render_template "course_catalog.html"
                (courses_context (sample_catalog ++ [course_of_form f])))
  ∧ (course_catalog (delete_course "CS101" sample_world).2).1
    = Return (render_template "course_catalog.html"
                (courses_context (without_code "CS101" sample_catalog))).
Proof.
  intros f.
  assert (valid_form f) as Hf by (by apply sample_form_valid).
  split; [exact Hf|]. split; [apply sample_catalog_has_code|].
  exact (course_catalog_after_add_and_delete sample_world f "CS101" Hf
           sample_catalog_has_code).
Defined.

(** [delete_course] logs the event [course-deleted] whether or not a course
    was deleted: twice, with the success flash, when the code occurs in the
    catalog of courses, and once, with the error flash and the file
    untouched, when it does not. *)
Theorem delete_course_logs_deleted_either_way w code :
  Forall has_code (catalog w) →
  (occurs code (catalog w) →
   log_output (delete_course code w).2
   = log_output w ++ [LogRecord INFO "course-deleted";
                       LogRecord INFO "course-deleted"]
   ∧ flashes (delete_course code w).2
     = flashes w ++ [("success", deleted_message code)])
  ∧ (¬ occurs code (catalog w) →
     log_output (delete_course code w).2
     = log_output w ++ [LogRecord INFO "course-deleted"]
     ∧ flashes (delete_course code w).2
       = flashes w ++ [("error", not_found_message code)]
     ∧ course_file (delete_course code w).2 = course_file w).
Proof.
  intros Hwf. split.
  - intros Hocc. rewrite (delete_course_present code w Hwf Hocc).
    split; [|done]. cbn. by rewrite <- app_assoc.
  - intros Hnot.
    destruct (occurs_or_differs code _ Hwf) as [Hocc|Hdiff]; [done|].
    by rewrite (delete_course_absent code w Hdiff).
Qed.

Lemma delete_course_logs_deleted_either_way_witness :
  Forall has_code (catalog sample_world)
  ∧ log_output (delete_course "CS101" sample_world).2
    = [LogRecord INFO "course-deleted"; LogRecord INFO "course-deleted"]
  ∧ log_output (delete_course "CS999" sample_world).2
    = [LogRecord INFO "course-deleted"].
Proof.
  split; [apply sample_catalog_has_code|].
  destruct (delete_course_logs_deleted_either_way sample_world "CS101"
              sample_catalog_has_code) as [Hyes _].
  destruct (delete_course_logs_deleted_either_way sample_world "CS999"
              sample_catalog_has_code) as [_ Hno].
  split.
  - apply Hyes. exists (sample_course "CS101" "Programming" "Rao").
    split; [apply list_elem_of_further, list_elem_of_here | reflexivity].
  - apply Hno. intros [c [Hin Hc]]. unfold sample_world, sample_catalog in Hin.
    cbn [catalog course_file] in Hin.
    repeat (apply elem_of_cons in Hin as [->|Hin]; [by vm_compute in Hc|]).
    by apply elem_of_nil in Hin.
Defined.

(** ** Blank values and padding *)

Module PyStripFacts.
Import PyStr PyStrFacts.

Lemma all_space_app (a b : string) :
  all_space (a +:+ b) = all_space a && all_space b.
Proof.
  induction a as [|ch a IH]; [done|].
  rewrite append_cons. simpl. rewrite IH. by destruct (isspace ch).
Qed.

Lemma lstrip_all_space s : all_space s = true → lstrip s = "".
Proof.
  induction s as [|ch s IH]; simpl; [done|].
  destruct (isspace ch); [exact IH | done].
Qed.

Lemma rstrip_all_space s : all_space s = true → rstrip s = "".
Proof.
  induction s as [|ch s IH]; simpl; [done|].
  destruct (isspace ch); [|done]. intros H. by rewrite (IH H).
Qed.

(** A value is empty once stripped exactly when it is all whitespace. *)
Lemma strip_empty_iff s : strip s = "" ↔ all_space s = true.
Proof.
  split.
  - intros E. destruct (strip_spec s) as (l & r & Es & Hl & Hr & _).
    rewrite E, append_nil in Es. rewrite Es, all_space_app.
    by rewrite Hl, Hr.
  - intros H. unfold strip. by rewrite (lstrip_all_space s H).
Qed.

Lemma lstrip_pad l x : all_space l = true → lstrip (l +:+ x) = lstrip x.
Proof.
  induction l as [|ch l IH]; [done|].
  rewrite append_cons. simpl. destruct (isspace ch); [exact IH | done].
Qed.

Lemma rstrip_pad x r : all_space r = true → rstrip (x +:+ r) = rstrip x.
Proof.
  intros Hr. induction x as [|ch x IH].
  - rewrite append_nil. by apply rstrip_all_space.
  - rewrite append_cons. simpl. by rewrite IH.
Qed.

Lemma lstrip_app s r : all_space s = false → lstrip (s +:+ r) = lstrip s +:+ r.
Proof.
  induction s as [|ch s IH]; [done|].
  rewrite append_cons. simpl. destruct (isspace ch); [exact IH | done].
Qed.

(** Whitespace around a value does not change what [strip] returns. *)
Lemma strip_pad l s r :
  all_space l = true → all_space r = true →
  strip (l +:+ s +:+ r) = strip s.
Proof.
  intros Hl Hr. unfold strip. rewrite (lstrip_pad l _ Hl).
  destruct (all_space s) eqn:Hs.
  - rewrite (lstrip_all_space s Hs).
    by rewrite lstrip_all_space by (by rewrite all_space_app, Hs, Hr).
  - rewrite (lstrip_app s r Hs). by apply rstrip_pad.
Qed.

End PyStripFacts.

Lemma required_is_course_field k : k ∈ required_fields → k ∈ course_fields.
Proof.
  intros Hk. unfold required_fields in Hk.
  repeat (apply elem_of_cons in Hk as [->|Hk]; [in_fields|]).
  by apply elem_of_nil in Hk.
Qed.

(** A POST that carries the eight fields is accepted exactly when none of
    [code], [name] and [instructor] is empty or all whitespace; the other
    five values play no part.  A POST that is not accepted gets the form
    back. *)
Theorem add_course_accepts_iff_required_not_blank w f :
  complete_form f →
  ((add_course (mkRequest POST f) w).1
   = Return (redirect (url_for "course_catalog"))
   ↔ ∀ k v, k ∈ required_fields → f !! k = Some v →
            PyStr.all_space v = false)
  ∧ ((add_course (mkRequest POST f) w).1
     = Return (redirect (url_for "course_catalog"))
     ∨ (add_course (mkRequest POST f) w).1
       = Return (render_template "add_course.html" no_context)).
Proof.
  intros Hf. rewrite (add_course_post f w Hf).
  destruct (missing_of f) as [|m rest] eqn:Hm.
  - split; [|by left]. split; [|done]. intros _ k v Hk E.
    destruct (PyStr.all_space v) eqn:Hv; [exfalso|done].
    assert (k ∈ missing_of f) as Hin; [|by rewrite Hm in Hin; set_solver].
    apply list_elem_of_filter. split; [|done].
    unfold stripped_field. rewrite E. by apply PyStripFacts.strip_empty_iff.
  - split; [|by right]. split; [done|]. intros Hall. exfalso.
    assert (m ∈ missing_of f) as Hin by (rewrite Hm; set_solver).
    apply list_elem_of_filter in Hin as [Hempty Hreq].
    destruct (Hf m (required_is_course_field m Hreq)) as [v E].
    unfold stripped_field in Hempty. rewrite E in Hempty.
    simpl in Hempty.
    pose proof (proj1 (PyStripFacts.strip_empty_iff v) Hempty) as Hv.
    pose proof (Hall m v Hreq E) as Hnot. congruence.
Qed.

Lemma add_course_accepts_iff_required_not_blank_witness :
  let blank := sample_form "CS103" "Graphs" "   " in
  let fine := sample_form "CS103" "Graphs" " Nair" in
  complete_form blank
  ∧ complete_form fine
  ∧ (add_course (mkRequest POST blank) sample_world).1
    = Return (render_template "add_course.html" no_context)
  ∧ (add_course (mkRequest POST fine) sample_world).1
    = Return (redirect "/catalog").
Proof.
  intros blank fine.
  split; [apply sample_form_complete|]. split; [apply sample_form_complete|].
  destruct (add_course_accepts_iff_required_not_blank sample_world blank
              (sample_form_complete _ _ _)) as [_ [Hb|Hb]].
  { exfalso. by vm_compute in Hb. }
  split; [exact Hb|].
  apply (add_course_accepts_iff_required_not_blank sample_world fine
           (sample_form_complete _ _ _)).
  intros k v Hk E. unfold required_fields in Hk.
  repeat (apply elem_of_cons in Hk as [->|Hk];
          [vm_compute in E; by simplify_eq|]).
  by apply elem_of_nil in Hk.
Defined.

(** Leading and trailing whitespace in the submitted values makes no
    difference: a POST whose values are those of another POST with
    whitespace put around them gets the same response and stores the same
    record. *)
Theorem add_course_ignores_surrounding_whitespace w f f' :
  (∀ k, k ∈ course_fields →
     ∃ v l r, f !! k = Some v ∧ f' !! k = Some (l +:+ v +:+ r)
              ∧ PyStr.all_space l = true ∧ PyStr.all_space r = true) →
  add_course (mkRequest POST f') w = add_course (mkRequest POST f) w.
Proof.
  intros H.
  assert (complete_form f) as Hf
    by (intros k Hk; destruct (H k Hk) as (v & _ & _ & E & _); by exists v).
  assert (complete_form f') as Hf'
    by (intros k Hk; destruct (H k Hk) as (v & l & r & _ & E & _);
        by eexists).
  assert (∀ k, k ∈ course_fields → stripped_field f' k = stripped_field f k)
    as Hs.
  { intros k Hk. destruct (H k Hk) as (v & l & r & E & E' & Hl & Hr).
    unfold stripped_field. rewrite E, E'. simpl.
    by apply PyStripFacts.strip_pad. }
  assert (course_of_form f' = course_of_form f) as Hc.
  { unfold course_of_form, course_fields. simpl fmap.
    by rewrite !Hs by in_fields. }
  assert (missing_of f' = missing_of f) as Hm.
  { unfold missing_of, required_fields. rewrite !filter_cons, !filter_nil.
    by rewrite !Hs by in_fields. }
  rewrite (add_course_post f' w Hf'), (add_course_post f w Hf).
  by rewrite Hc, Hm.
Qed.

Lemma add_course_ignores_surrounding_whitespace_witness :
  let f := sample_form "CS103" "Graphs" "Nair" in
  let f' : gmap string string := (λ v, " " +:+ v +:+ "  ") <$> f in
  f' !! "code" = Some " CS103  "
  ∧ add_course (mkRequest POST f') sample_world
    = add_course (mkRequest POST f) sample_world
  ∧ (add_course (mkRequest POST f') sample_world).1
    = Return (redirect "/catalog").
Proof.
  intros f f'. split; [reflexivity|].
  assert (add_course (mkRequest POST f') sample_world
          = add_course (mkRequest POST f) sample_world) as Hsame.
  { apply (add_course_ignores_surrounding_whitespace sample_world f f').
    intros k Hk. unfold course_fields in Hk.
    repeat (apply elem_of_cons in Hk as [->|Hk];
            [eexists _, " ", "  "; by repeat split|]).
    by apply elem_of_nil in Hk. }
  split; [exact Hsame|]. rewrite Hsame. by vm_compute.
Defined.
